(** * CPU_Simulator: the pipeline hazard tracker (Stats.cpp) and the
      processor core driver (CPU.cpp), embedded as state-passing functions.

    C++ [int] and [uint32_t] values are integers of [Z]; the 32-bit
    wrap-around of [uint32_t] arithmetic is written out with [wrap32].
    The two fixed-size arrays ([resultReg], [regFile]) are lists indexed
    through [arr_get] and [arr_set], which fail outside the array, where
    the C++ program has undefined behaviour.  Functions that index an
    array therefore live in the [option] monad. *)

From Stdlib Require Import ZArith Lia Bool.
From stdpp Require Import base option list.

Local Open Scope Z_scope.

(** ** Fixed-size arrays *)

Definition in_bounds (a : list Z) (i : Z) : bool :=
  (0 <=? i) && (i <? Z.of_nat (length a)).

(** [a[i]] as an rvalue. *)
Definition arr_get (a : list Z) (i : Z) : option Z :=
  if in_bounds a i then a !! Z.to_nat i else None.

(** [a[i] = v]. *)
Definition arr_set (a : list Z) (i v : Z) : option (list Z) :=
  if in_bounds a i then Some (<[Z.to_nat i := v]> a) else None.

(** [for (int i = lo + n; i > lo; i--) a[i] = a[i - 1];] *)
Fixpoint shift_loop (n : nat) (lo : Z) (a : list Z) : option (list Z) :=
  match n with
  | O => Some a
  | S n' =>
      let i := lo + Z.of_nat n in
      v ← arr_get a (i - 1);
      a' ← arr_set a i v;
      shift_loop n' lo a'
  end.

(** [for (int i = hi; i > lo; i--) a[i] = a[i - 1];] *)
Definition shift (hi lo : Z) (a : list Z) : option (list Z) :=
  shift_loop (Z.to_nat (hi - lo)) lo a.

(** Running a fallible state transformer [n] times. *)
Fixpoint repeat_m {S : Type} (n : nat) (f : S -> option S) (s : S) : option S :=
  match n with
  | O => Some s
  | S n' => s' ← f s; repeat_m n' f s'
  end.

(** ** The pipeline hazard tracker, Stats.cpp *)

Module Stats.

(** Modelled from the spec: the stage enumeration and [PIPESTAGES] are
    declared in Stats.h, which is not among the sources.  The spec lists
    the eight stages in order; showPipe prints the same order. *)
Definition IF1 : Z := 0.
Definition IF2 : Z := 1.
Definition ID : Z := 2.
Definition EXE1 : Z := 3.
Definition EXE2 : Z := 4.
Definition MEM1 : Z := 5.
Definition MEM2 : Z := 6.
Definition WB : Z := 7.
Definition PIPESTAGES : Z := 8.

Record Stats : Type := mkStats {
  cycles : Z;
  flushes : Z;
  bubbles : Z;
  memops : Z;
  branches : Z;
  taken : Z;
  resultReg : list Z
}.

(** The declared size of [resultReg]. *)
Definition wf (s : Stats) : Prop := length (resultReg s) = Z.to_nat PIPESTAGES.

Definition with_resultReg (a : list Z) (s : Stats) : Stats :=
  mkStats (cycles s) (flushes s) (bubbles s) (memops s) (branches s) (taken s) a.

Definition with_cycles (c : Z) (s : Stats) : Stats :=
  mkStats c (flushes s) (bubbles s) (memops s) (branches s) (taken s) (resultReg s).

Definition with_flushes (f : Z) (s : Stats) : Stats :=
  mkStats (cycles s) f (bubbles s) (memops s) (branches s) (taken s) (resultReg s).

Definition with_bubbles (b : Z) (s : Stats) : Stats :=
  mkStats (cycles s) (flushes s) b (memops s) (branches s) (taken s) (resultReg s).

(** [Stats::Stats()] *)
Definition init : Stats :=
  mkStats (PIPESTAGES - 1) 0 0 0 0 0 (replicate (Z.to_nat (PIPESTAGES - IF1)) (-1)).

(** [Stats::clock()] *)
Definition clock (s : Stats) : option Stats :=
  let s := with_cycles (cycles s + 1) s in
  a ← shift WB IF1 (resultReg s);
  a ← arr_set a IF1 (-1);
  Some (with_resultReg a s).

(** [Stats::bubble()] *)
Definition bubble (s : Stats) : option Stats :=
  let s := with_bubbles (bubbles s + 1) s in
  let s := with_cycles (cycles s + 1) s in
  a ← shift WB EXE1 (resultReg s);
  a ← arr_set a EXE1 (-1);
  Some (with_resultReg a s).

(** The body of the outer loop of [Stats::registerSrc] at stage [i]: the
    inner loop runs [bubble] once for each [j] from [i] below [WB]. *)
Definition registerSrc_at (i r : Z) (s : Stats) : option Stats :=
  v ← arr_get (resultReg s) i;
  if v =? r then repeat_m (Z.to_nat (WB - i)) bubble s else Some s.

(** The outer loop of [Stats::registerSrc]: [n] iterations left, at [i]. *)
Fixpoint registerSrc_loop (n : nat) (i r : Z) (s : Stats) : option Stats :=
  match n with
  | O => Some s
  | S n' =>
      s ← registerSrc_at i r s;
      registerSrc_loop n' (i + 1) r s
  end.

(** [Stats::registerSrc(int r)] *)
Definition registerSrc (r : Z) (s : Stats) : option Stats :=
  if r =? 0 then Some s
  else registerSrc_loop (Z.to_nat (WB - EXE1)) EXE1 r s.

(** [Stats::registerDest(int r)] *)
Definition registerDest (r : Z) (s : Stats) : option Stats :=
  a ← arr_set (resultReg s) ID r;
  Some (with_resultReg a s).

(** The body of the outer loop of [Stats::flush] with its counter at [i].
    The inner loop declares an [i] of its own; the store after it is
    outside that loop and indexes with the outer counter. *)
Definition flush_at (i : Z) (s : Stats) : option Stats :=
  let s := with_cycles (cycles s + 1) s in
  let s := with_flushes (flushes s + 1) s in
  a ← shift WB IF1 (resultReg s);
  a ← arr_set a i (-1);
  Some (with_resultReg a s).

(** The outer loop of [Stats::flush]: [n] iterations left, counter at [i]. *)
Fixpoint flush_loop (n : nat) (i : Z) (s : Stats) : option Stats :=
  match n with
  | O => Some s
  | S n' =>
      s ← flush_at i s;
      flush_loop n' (i + 1) s
  end.

(** [Stats::flush(int count)] *)
Definition flush (count : Z) (s : Stats) : option Stats :=
  flush_loop (Z.to_nat count) 0 s.

(** Modelled from the spec: [countMemOp], [countBranch] and [countTaken]
    are defined in Stats.h, which is not among the sources; each
    increments its counter by 1 and changes nothing else. *)
Definition countMemOp (s : Stats) : Stats :=
  mkStats (cycles s) (flushes s) (bubbles s) (memops s + 1) (branches s) (taken s) (resultReg s).

Definition countBranch (s : Stats) : Stats :=
  mkStats (cycles s) (flushes s) (bubbles s) (memops s) (branches s + 1) (taken s) (resultReg s).

Definition countTaken (s : Stats) : Stats :=
  mkStats (cycles s) (flushes s) (bubbles s) (memops s) (branches s) (taken s + 1) (resultReg s).

End Stats.

(** ** 32-bit words *)

(** Conversion to [uint32_t]. *)
Definition wrap32 (z : Z) : Z := z mod 2 ^ 32.

(** Conversion to [int32_t]: the two's-complement reading. *)
Definition to_int32 (z : Z) : Z := (z + 2 ^ 31) mod 2 ^ 32 - 2 ^ 31.

(** ** The processor core driver, CPU.cpp *)

Module CPU.

(** Modelled from the spec: the operation tags of the arithmetic unit are
    declared in ALU.h, which is not among the sources; these are the tags
    [decode] assigns to [aluOp]. *)
Inductive ALU_OP : Type := ADD | SHF_L | SHF_R | MUL | DIV | AND | CMP_LT.

(** Modelled from the spec: the register constants are declared in CPU.h,
    which is not among the sources.  [regNames] has 32 entries, the
    zero register first and the return-address register last; the high/low pair is one
    pseudo-register distinct from the 32 general-purpose indices. *)
Definition NREGS : Z := 32.
Definition REG_ZERO : Z := 0.
Definition REG_RA : Z := 31.
Definition REG_HILO : Z := 32.

(** What the program writes to [cout] outside the debug macro [D]. *)
Inductive out_item : Type :=
| OutEndl                 (* cout << endl *)
| OutSigned (v : Z)       (* cout << a blank << (signed)v *)
| OutPrompt.              (* cout << endl, then the prompt *)

(** What the program writes to [cerr]; the argument is the printed pc. *)
Inductive diagnostic : Type :=
| UnimplementedInstruction (at_pc : Z)
| UnimplementedTrap (at_pc : Z).

Section Driver.

(** Memory.cpp and ALU.cpp are not among the sources: the memory and the
    arithmetic unit are parameters.  A memory access may fault; the
    arithmetic unit keeps the halves of its last wide result. *)
Context {Mem Alu : Type}.
Variable loadWord : Mem -> Z -> option Z.          (* m.loadWord(addr) *)
Variable storeWord : Z -> Z -> Mem -> option Mem.  (* m.storeWord(data, addr) *)
Variable getSize : Mem -> Z.
Variable alu_op : ALU_OP -> Z -> Z -> Alu -> Z * Alu.
Variable getUpper : Alu -> Z.
Variable getLower : Alu -> Z.

(** The members of [class CPU], and the three standard streams it uses:
    [cin] holds the integers still to be read. *)
Record CPU : Type := mkCPU {
  pc : Z;
  iMem : Mem;
  dMem : Mem;
  alu : Alu;
  regFile : list Z;
  hi : Z;
  lo : Z;
  instr : Z;
  writeDest : bool;
  destReg : Z;
  opIsLoad : bool;
  opIsStore : bool;
  opIsMultDiv : bool;
  aluOp : ALU_OP;
  aluSrc1 : Z;
  aluSrc2 : Z;
  storeData : Z;
  aluOut : Z;
  writeData : Z;
  instructions : Z;
  stop : bool;
  stats : Stats.Stats;
  cin : list Z;
  cout : list out_item;
  cerr : list diagnostic
}.

Definition set_pc (v : Z) (c : CPU) : CPU :=
  mkCPU v (iMem c) (dMem c) (alu c) (regFile c) (hi c) (lo c) (instr c)
    (writeDest c) (destReg c) (opIsLoad c) (opIsStore c) (opIsMultDiv c)
    (aluOp c) (aluSrc1 c) (aluSrc2 c) (storeData c) (aluOut c) (writeData c)
    (instructions c) (stop c) (stats c) (cin c) (cout c) (cerr c).

Definition set_dMem (v : Mem) (c : CPU) : CPU :=
  mkCPU (pc c) (iMem c) v (alu c) (regFile c) (hi c) (lo c) (instr c)
    (writeDest c) (destReg c) (opIsLoad c) (opIsStore c) (opIsMultDiv c)
    (aluOp c) (aluSrc1 c) (aluSrc2 c) (storeData c) (aluOut c) (writeData c)
    (instructions c) (stop c) (stats c) (cin c) (cout c) (cerr c).

Definition set_alu (v : Alu) (c : CPU) : CPU :=
  mkCPU (pc c) (iMem c) (dMem c) v (regFile c) (hi c) (lo c) (instr c)
    (writeDest c) (destReg c) (opIsLoad c) (opIsStore c) (opIsMultDiv c)
    (aluOp c) (aluSrc1 c) (aluSrc2 c) (storeData c) (aluOut c) (writeData c)
    (instructions c) (stop c) (stats c) (cin c) (cout c) (cerr c).

Definition set_regFile (v : list Z) (c : CPU) : CPU :=
  mkCPU (pc c) (iMem c) (dMem c) (alu c) v (hi c) (lo c) (instr c)
    (writeDest c) (destReg c) (opIsLoad c) (opIsStore c) (opIsMultDiv c)
    (aluOp c) (aluSrc1 c) (aluSrc2 c) (storeData c) (aluOut c) (writeData c)
    (instructions c) (stop c) (stats c) (cin c) (cout c) (cerr c).

Definition set_hi (v : Z) (c : CPU) : CPU :=
  mkCPU (pc c) (iMem c) (dMem c) (alu c) (regFile c) v (lo c) (instr c)
    (writeDest c) (destReg c) (opIsLoad c) (opIsStore c) (opIsMultDiv c)
    (aluOp c) (aluSrc1 c) (aluSrc2 c) (storeData c) (aluOut c) (writeData c)
    (instructions c) (stop c) (stats c) (cin c) (cout c) (cerr c).

Definition set_lo (v : Z) (c : CPU) : CPU :=
  mkCPU (pc c) (iMem c) (dMem c) (alu c) (regFile c) (hi c) v (instr c)
    (writeDest c) (destReg c) (opIsLoad c) (opIsStore c) (opIsMultDiv c)
    (aluOp c) (aluSrc1 c) (aluSrc2 c) (storeData c) (aluOut c) (writeData c)
    (instructions c) (stop c) (stats c) (cin c) (cout c) (cerr c).

Definition set_instr (v : Z) (c : CPU) : CPU :=
  mkCPU (pc c) (iMem c) (dMem c) (alu c) (regFile c) (hi c) (lo c) v
    (writeDest c) (destReg c) (opIsLoad c) (opIsStore c) (opIsMultDiv c)
    (aluOp c) (aluSrc1 c) (aluSrc2 c) (storeData c) (aluOut c) (writeData c)
    (instructions c) (stop c) (stats c) (cin c) (cout c) (cerr c).

Definition set_writeDest (v : bool) (c : CPU) : CPU :=
  mkCPU (pc c) (iMem c) (dMem c) (alu c) (regFile c) (hi c) (lo c) (instr c) v
    (destReg c) (opIsLoad c) (opIsStore c) (opIsMultDiv c) (aluOp c)
    (aluSrc1 c) (aluSrc2 c) (storeData c) (aluOut c) (writeData c)
    (instructions c) (stop c) (stats c) (cin c) (cout c) (cerr c).

Definition set_destReg (v : Z) (c : CPU) : CPU :=
  mkCPU (pc c) (iMem c) (dMem c) (alu c) (regFile c) (hi c) (lo c) (instr c)
    (writeDest c) v (opIsLoad c) (opIsStore c) (opIsMultDiv c) (aluOp c)
    (aluSrc1 c) (aluSrc2 c) (storeData c) (aluOut c) (writeData c)
    (instructions c) (stop c) (stats c) (cin c) (cout c) (cerr c).

Definition set_opIsLoad (v : bool) (c : CPU) : CPU :=
  mkCPU (pc c) (iMem c) (dMem c) (alu c) (regFile c) (hi c) (lo c) (instr c)
    (writeDest c) (destReg c) v (opIsStore c) (opIsMultDiv c) (aluOp c)
    (aluSrc1 c) (aluSrc2 c) (storeData c) (aluOut c) (writeData c)
    (instructions c) (stop c) (stats c) (cin c) (cout c) (cerr c).

Definition set_opIsStore (v : bool) (c : CPU) : CPU :=
  mkCPU (pc c) (iMem c) (dMem c) (alu c) (regFile c) (hi c) (lo c) (instr c)
    (writeDest c) (destReg c) (opIsLoad c) v (opIsMultDiv c) (aluOp c)
    (aluSrc1 c) (aluSrc2 c) (storeData c) (aluOut c) (writeData c)
    (instructions c) (stop c) (stats c) (cin c) (cout c) (cerr c).

Definition set_opIsMultDiv (v : bool) (c : CPU) : CPU :=
  mkCPU (pc c) (iMem c) (dMem c) (alu c) (regFile c) (hi c) (lo c) (instr c)
    (writeDest c) (destReg c) (opIsLoad c) (opIsStore c) v (aluOp c)
    (aluSrc1 c) (aluSrc2 c) (storeData c) (aluOut c) (writeData c)
    (instructions c) (stop c) (stats c) (cin c) (cout c) (cerr c).

Definition set_aluOp (v : ALU_OP) (c : CPU) : CPU :=
  mkCPU (pc c) (iMem c) (dMem c) (alu c) (regFile c) (hi c) (lo c) (instr c)
    (writeDest c) (destReg c) (opIsLoad c) (opIsStore c) (opIsMultDiv c) v
    (aluSrc1 c) (aluSrc2 c) (storeData c) (aluOut c) (writeData c)
    (instructions c) (stop c) (stats c) (cin c) (cout c) (cerr c).

Definition set_aluSrc1 (v : Z) (c : CPU) : CPU :=
  mkCPU (pc c) (iMem c) (dMem c) (alu c) (regFile c) (hi c) (lo c) (instr c)
    (writeDest c) (destReg c) (opIsLoad c) (opIsStore c) (opIsMultDiv c)
    (aluOp c) v (aluSrc2 c) (storeData c) (aluOut c) (writeData c)
    (instructions c) (stop c) (stats c) (cin c) (cout c) (cerr c).

Definition set_aluSrc2 (v : Z) (c : CPU) : CPU :=
  mkCPU (pc c) (iMem c) (dMem c) (alu c) (regFile c) (hi c) (lo c) (instr c)
    (writeDest c) (destReg c) (opIsLoad c) (opIsStore c) (opIsMultDiv c)
    (aluOp c) (aluSrc1 c) v (storeData c) (aluOut c) (writeData c)
    (instructions c) (stop c) (stats c) (cin c) (cout c) (cerr c).

Definition set_storeData (v : Z) (c : CPU) : CPU :=
  mkCPU (pc c) (iMem c) (dMem c) (alu c) (regFile c) (hi c) (lo c) (instr c)
    (writeDest c) (destReg c) (opIsLoad c) (opIsStore c) (opIsMultDiv c)
    (aluOp c) (aluSrc1 c) (aluSrc2 c) v (aluOut c) (writeData c)
    (instructions c) (stop c) (stats c) (cin c) (cout c) (cerr c).

Definition set_aluOut (v : Z) (c : CPU) : CPU :=
  mkCPU (pc c) (iMem c) (dMem c) (alu c) (regFile c) (hi c) (lo c) (instr c)
    (writeDest c) (destReg c) (opIsLoad c) (opIsStore c) (opIsMultDiv c)
    (aluOp c) (aluSrc1 c) (aluSrc2 c) (storeData c) v (writeData c)
    (instructions c) (stop c) (stats c) (cin c) (cout c) (cerr c).

Definition set_writeData (v : Z) (c : CPU) : CPU :=
  mkCPU (pc c) (iMem c) (dMem c) (alu c) (regFile c) (hi c) (lo c) (instr c)
    (writeDest c) (destReg c) (opIsLoad c) (opIsStore c) (opIsMultDiv c)
    (aluOp c) (aluSrc1 c) (aluSrc2 c) (storeData c) (aluOut c) v
    (instructions c) (stop c) (stats c) (cin c) (cout c) (cerr c).

Definition set_instructions (v : Z) (c : CPU) : CPU :=
  mkCPU (pc c) (iMem c) (dMem c) (alu c) (regFile c) (hi c) (lo c) (instr c)
    (writeDest c) (destReg c) (opIsLoad c) (opIsStore c) (opIsMultDiv c)
    (aluOp c) (aluSrc1 c) (aluSrc2 c) (storeData c) (aluOut c) (writeData c) v
    (stop c) (stats c) (cin c) (cout c) (cerr c).

Definition set_stop (v : bool) (c : CPU) : CPU :=
  mkCPU (pc c) (iMem c) (dMem c) (alu c) (regFile c) (hi c) (lo c) (instr c)
    (writeDest c) (destReg c) (opIsLoad c) (opIsStore c) (opIsMultDiv c)
    (aluOp c) (aluSrc1 c) (aluSrc2 c) (storeData c) (aluOut c) (writeData c)
    (instructions c) v (stats c) (cin c) (cout c) (cerr c).

Definition set_stats (v : Stats.Stats) (c : CPU) : CPU :=
  mkCPU (pc c) (iMem c) (dMem c) (alu c) (regFile c) (hi c) (lo c) (instr c)
    (writeDest c) (destReg c) (opIsLoad c) (opIsStore c) (opIsMultDiv c)
    (aluOp c) (aluSrc1 c) (aluSrc2 c) (storeData c) (aluOut c) (writeData c)
    (instructions c) (stop c) v (cin c) (cout c) (cerr c).

Definition set_cin (v : list Z) (c : CPU) : CPU :=
  mkCPU (pc c) (iMem c) (dMem c) (alu c) (regFile c) (hi c) (lo c) (instr c)
    (writeDest c) (destReg c) (opIsLoad c) (opIsStore c) (opIsMultDiv c)
    (aluOp c) (aluSrc1 c) (aluSrc2 c) (storeData c) (aluOut c) (writeData c)
    (instructions c) (stop c) (stats c) v (cout c) (cerr c).

Definition set_cout (v : list out_item) (c : CPU) : CPU :=
  mkCPU (pc c) (iMem c) (dMem c) (alu c) (regFile c) (hi c) (lo c) (instr c)
    (writeDest c) (destReg c) (opIsLoad c) (opIsStore c) (opIsMultDiv c)
    (aluOp c) (aluSrc1 c) (aluSrc2 c) (storeData c) (aluOut c) (writeData c)
    (instructions c) (stop c) (stats c) (cin c) v (cerr c).

Definition set_cerr (v : list diagnostic) (c : CPU) : CPU :=
  mkCPU (pc c) (iMem c) (dMem c) (alu c) (regFile c) (hi c) (lo c) (instr c)
    (writeDest c) (destReg c) (opIsLoad c) (opIsStore c) (opIsMultDiv c)
    (aluOp c) (aluSrc1 c) (aluSrc2 c) (storeData c) (aluOut c) (writeData c)
    (instructions c) (stop c) (stats c) (cin c) (cout c) v.


(** A call [stats.f(...)] on the tracker member. *)
Definition stats_do (f : Stats.Stats -> option Stats.Stats) (c : CPU) : option CPU :=
  st ← f (stats c);
  Some (set_stats st c).

(** The declared sizes of the two arrays a driver owns. *)
Definition wf (c : CPU) : Prop :=
  Stats.wf (stats c) /\ length (regFile c) = Z.to_nat NREGS.

(** [CPU::CPU(pc, iMem, dMem)].  The constructor assigns [pc], the two
    memories, the register file, [hi], [lo], [instructions] and [stop],
    and default-constructs the tracker; [u] is the object before the
    constructor body runs and supplies every member it leaves unset. *)
Definition construct (u : CPU) (pc0 : Z) (im dm : Mem) : option CPU :=
  let c := mkCPU pc0 im dm (alu u) (replicate (Z.to_nat NREGS) 0) (hi u) (lo u)
             (instr u) (writeDest u) (destReg u) (opIsLoad u) (opIsStore u)
             (opIsMultDiv u) (aluOp u) (aluSrc1 u) (aluSrc2 u) (storeData u)
             (aluOut u) (writeData u) (instructions u) (stop u) Stats.init
             (cin u) (cout u) (cerr u) in
  let c := set_hi 0 c in
  let c := set_lo 0 c in
  rf ← arr_set (regFile c) 28 0x10008000;
  let c := set_regFile rf c in
  rf ← arr_set (regFile c) 29 (wrap32 (0x10000000 + getSize dm));
  let c := set_regFile rf c in
  let c := set_instructions 0 c in
  Some (set_stop false c).

(** [CPU::fetch()] *)
Definition fetch (c : CPU) : option CPU :=
  w ← loadWord (iMem c) (pc c);
  let c := set_instr w c in
  Some (set_pc (wrap32 (pc c + 4)) c).

(** The instruction fields extracted at the head of [CPU::decode]. *)
Definition opcode_of (i : Z) : Z := Z.shiftr i 26.
Definition rs_of (i : Z) : Z := Z.land (Z.shiftr i 21) 0x1f.
Definition rt_of (i : Z) : Z := Z.land (Z.shiftr i 16) 0x1f.
Definition rd_of (i : Z) : Z := Z.land (Z.shiftr i 11) 0x1f.
Definition shamt_of (i : Z) : Z := Z.land (Z.shiftr i 6) 0x1f.
Definition funct_of (i : Z) : Z := Z.land i 0x3f.
Definition uimm_of (i : Z) : Z := Z.land i 0xffff.
Definition simm_of (i : Z) : Z := Z.shiftr (to_int32 (Z.shiftl (uimm_of i) 16)) 16.
Definition addr_of (i : Z) : Z := Z.land i 0x3ffffff.

(** [(pc & 0xf0000000) | addr << 2] *)
Definition jump_target (pc0 addr : Z) : Z :=
  Z.lor (Z.land pc0 0xf0000000) (wrap32 (Z.shiftl addr 2)).

(** [pc + (simm << 2)] *)
Definition branch_target (pc0 simm : Z) : Z :=
  wrap32 (pc0 + Z.shiftl simm 2).

(** [CPU::decode()].  The debug macro [D] prints nothing in the normal
    build and is left out.  The receiver of [countBranch] in the [bne] case
    is spelled [istats] in the source; it is read as the tracker member
    [stats], the only tracker the class has. *)
Definition decode (c : CPU) : option CPU :=
  let opcode := opcode_of (instr c) in
  let rs := rs_of (instr c) in
  let rt := rt_of (instr c) in
  let rd := rd_of (instr c) in
  let shamt := shamt_of (instr c) in
  let funct := funct_of (instr c) in
  let uimm := uimm_of (instr c) in
  let simm := simm_of (instr c) in
  let addr := addr_of (instr c) in
  let c := set_writeDest false c in
  let c := set_opIsLoad false c in
  let c := set_opIsStore false c in
  let c := set_opIsMultDiv false c in
  let c := set_aluOp ADD c in
  let c := set_storeData 0 c in
  match opcode with
  | 0x00 =>
      match funct with
      | 0x00 => (* sll *)
          let c := set_writeDest true c in
          let c := set_destReg rd c in
          c ← stats_do (Stats.registerDest rd) c;
          let c := set_aluOp SHF_L c in
          v ← arr_get (regFile c) rs;
          let c := set_aluSrc1 v c in
          c ← stats_do (Stats.registerSrc rs) c;
          Some (set_aluSrc2 shamt c)
      | 0x03 => (* sra *)
          let c := set_writeDest true c in
          let c := set_destReg rd c in
          c ← stats_do (Stats.registerDest rd) c;
          let c := set_aluOp SHF_R c in
          v ← arr_get (regFile c) rs;
          let c := set_aluSrc1 v c in
          c ← stats_do (Stats.registerSrc rs) c;
          Some (set_aluSrc2 shamt c)
      | 0x08 => (* jr *)
          v ← arr_get (regFile c) rs;
          let c := set_pc v c in
          stats_do (Stats.flush 2) c
      | 0x10 => (* mfhi *)
          let c := set_writeDest true c in
          let c := set_destReg rd c in
          c ← stats_do (Stats.registerDest rd) c;
          let c := set_aluOp ADD c in
          let c := set_aluSrc1 (hi c) c in
          c ← stats_do (Stats.registerSrc REG_HILO) c;
          v ← arr_get (regFile c) REG_ZERO;
          Some (set_aluSrc2 v c)
      | 0x12 => (* mflo *)
          let c := set_writeDest true c in
          let c := set_destReg rd c in
          c ← stats_do (Stats.registerDest rd) c;
          let c := set_aluOp ADD c in
          let c := set_aluSrc1 (lo c) c in
          c ← stats_do (Stats.registerSrc REG_HILO) c;
          v ← arr_get (regFile c) REG_ZERO;
          Some (set_aluSrc2 v c)
      | 0x18 => (* mult *)
          let c := set_opIsMultDiv true c in
          c ← stats_do (Stats.registerDest REG_HILO) c;
          let c := set_aluOp MUL c in
          v ← arr_get (regFile c) rs;
          let c := set_aluSrc1 v c in
          c ← stats_do (Stats.registerSrc rs) c;
          v ← arr_get (regFile c) rt;
          let c := set_aluSrc2 v c in
          stats_do (Stats.registerSrc rt) c
      | 0x1a => (* div *)
          let c := set_opIsMultDiv true c in
          c ← stats_do (Stats.registerDest REG_HILO) c;
          let c := set_aluOp DIV c in
          v ← arr_get (regFile c) rs;
          let c := set_aluSrc1 v c in
          c ← stats_do (Stats.registerSrc rs) c;
          v ← arr_get (regFile c) rt;
          let c := set_aluSrc2 v c in
          stats_do (Stats.registerSrc rt) c
      | 0x21 => (* addu *)
          let c := set_writeDest true c in
          let c := set_destReg rd c in
          c ← stats_do (Stats.registerDest rd) c;
          let c := set_aluOp ADD c in
          v ← arr_get (regFile c) rs;
          let c := set_aluSrc1 v c in
          c ← stats_do (Stats.registerSrc rs) c;
          v ← arr_get (regFile c) rt;
          let c := set_aluSrc2 v c in
          stats_do (Stats.registerSrc rt) c
      | 0x23 => (* subu *)
          let c := set_writeDest true c in
          let c := set_destReg rd c in
          c ← stats_do (Stats.registerDest rd) c;
          let c := set_aluOp ADD c in
          v ← arr_get (regFile c) rs;
          let c := set_aluSrc1 v c in
          c ← stats_do (Stats.registerSrc rs) c;
          v ← arr_get (regFile c) rt;
          let c := set_aluSrc2 (wrap32 (- v)) c in
          stats_do (Stats.registerSrc rt) c
      | 0x2a => (* slt *)
          let c := set_writeDest true c in
          let c := set_destReg rd c in
          let c := set_aluOp CMP_LT c in
          v ← arr_get (regFile c) rs;
          let c := set_aluSrc1 v c in
          c ← stats_do (Stats.registerSrc rs) c;
          v ← arr_get (regFile c) rt;
          let c := set_aluSrc2 v c in
          stats_do (Stats.registerSrc rt) c
      | _ =>
          Some (set_cerr (cerr c ++ [UnimplementedInstruction (wrap32 (pc c - 4))]) c)
      end
  | 0x02 => (* j *)
      let c := set_writeDest false c in
      let c := set_pc (jump_target (pc c) addr) c in
      stats_do (Stats.flush 2) c
  | 0x03 => (* jal *)
      let c := set_writeDest true c in
      let c := set_destReg REG_RA c in
      c ← stats_do (Stats.registerDest REG_RA) c;
      let c := set_aluOp ADD c in
      let c := set_aluSrc1 (pc c) c in
      v ← arr_get (regFile c) REG_ZERO;
      let c := set_aluSrc2 v c in
      let c := set_pc (jump_target (pc c) addr) c in
      stats_do (Stats.flush 2) c
  | 0x04 => (* beq: the if governs the assignment to pc only *)
      let c := set_stats (Stats.countBranch (stats c)) c in
      c ← stats_do (Stats.registerSrc rs) c;
      c ← stats_do (Stats.registerSrc rt) c;
      a ← arr_get (regFile c) rs;
      b ← arr_get (regFile c) rt;
      let c := if a =? b then set_pc (branch_target (pc c) simm) c else c in
      let c := set_stats (Stats.countTaken (stats c)) c in
      stats_do (Stats.flush 2) c
  | 0x05 => (* bne: the if governs the assignment to pc only *)
      let c := set_stats (Stats.countBranch (stats c)) c in
      c ← stats_do (Stats.registerSrc rs) c;
      c ← stats_do (Stats.registerSrc rt) c;
      a ← arr_get (regFile c) rs;
      b ← arr_get (regFile c) rt;
      let c := if negb (a =? b) then set_pc (branch_target (pc c) simm) c else c in
      let c := set_stats (Stats.countTaken (stats c)) c in
      stats_do (Stats.flush 2) c
  | 0x09 => (* addiu *)
      let c := set_writeDest true c in
      let c := set_destReg rt c in
      c ← stats_do (Stats.registerDest rt) c;
      let c := set_aluOp ADD c in
      v ← arr_get (regFile c) rs;
      let c := set_aluSrc1 v c in
      c ← stats_do (Stats.registerSrc rs) c;
      Some (set_aluSrc2 (wrap32 simm) c)
  | 0x0c => (* andi *)
      let c := set_writeDest true c in
      let c := set_destReg rt c in
      c ← stats_do (Stats.registerDest rt) c;
      let c := set_aluOp AND c in
      v ← arr_get (regFile c) rs;
      let c := set_aluSrc1 v c in
      c ← stats_do (Stats.registerSrc rs) c;
      Some (set_aluSrc2 uimm c)
  | 0x0f => (* lui: destReg is not assigned *)
      let c := set_writeDest true c in
      c ← stats_do (Stats.registerDest rt) c;
      let c := set_aluOp SHF_L c in
      let c := set_aluSrc1 (wrap32 simm) c in
      Some (set_aluSrc2 16 c)
  | 0x1a => (* trap *)
      match Z.land addr 0xf with
      | 0x0 => Some (set_cout (cout c ++ [OutEndl]) c)
      | 0x1 =>
          v ← arr_get (regFile c) rs;
          Some (set_cout (cout c ++ [OutSigned (to_int32 v)]) c)
      | 0x5 =>
          let c := set_cout (cout c ++ [OutPrompt]) c in
          match cin c with
          | v :: rest =>
              rf ← arr_set (regFile c) rt (wrap32 v);
              Some (set_cin rest (set_regFile rf c))
          | [] => Some c
          end
      | 0xa => Some (set_stop true c)
      | _ =>
          let c := set_cerr (cerr c ++ [UnimplementedTrap (wrap32 (pc c - 4))]) c in
          Some (set_stop true c)
      end
  | 0x23 => (* lw *)
      let c := set_opIsLoad true c in
      let c := set_stats (Stats.countMemOp (stats c)) c in
      let c := set_writeDest true c in
      let c := set_destReg rt c in
      c ← stats_do (Stats.registerDest rt) c;
      let c := set_aluOp ADD c in
      v ← arr_get (regFile c) rs;
      let c := set_aluSrc1 v c in
      c ← stats_do (Stats.registerSrc rs) c;
      Some (set_aluSrc2 (wrap32 simm) c)
  | 0x2b => (* sw *)
      let c := set_opIsStore true c in
      let c := set_stats (Stats.countMemOp (stats c)) c in
      v ← arr_get (regFile c) rt;
      let c := set_storeData v c in
      c ← stats_do (Stats.registerSrc rt) c;
      let c := set_aluOp ADD c in
      v ← arr_get (regFile c) rs;
      let c := set_aluSrc1 v c in
      c ← stats_do (Stats.registerSrc rs) c;
      Some (set_aluSrc2 (wrap32 simm) c)
  | _ =>
      Some (set_cerr (cerr c ++ [UnimplementedInstruction (wrap32 (pc c - 4))]) c)
  end.

(** [CPU::execute()] *)
Definition execute (c : CPU) : CPU :=
  let '(r, a) := alu_op (aluOp c) (aluSrc1 c) (aluSrc2 c) (alu c) in
  set_aluOut r (set_alu a c).

(** [CPU::mem()] *)
Definition mem (c : CPU) : option CPU :=
  c ← (if opIsLoad c
       then (w ← loadWord (dMem c) (aluOut c); Some (set_writeData w c))
       else Some (set_writeData (aluOut c) c));
  if opIsStore c
  then (m ← storeWord (storeData c) (aluOut c) (dMem c); Some (set_dMem m c))
  else Some c.

(** [CPU::writeback()] *)
Definition writeback (c : CPU) : option CPU :=
  c ← (if writeDest c && (0 <? destReg c)
       then (rf ← arr_set (regFile c) (destReg c) (writeData c);
             Some (set_regFile rf c))
       else Some c);
  if opIsMultDiv c
  then Some (set_lo (getLower (alu c)) (set_hi (getUpper (alu c)) c))
  else Some c.

(** One iteration of the loop of [CPU::run()]. *)
Definition step (c : CPU) : option CPU :=
  let c := set_instructions (instructions c + 1) c in
  c ← fetch c;
  c ← decode c;
  let c := execute c in
  c ← mem c;
  writeback c.

(** What a bounded run of the loop ends in. *)
Inductive outcome : Type :=
| Halted (c : CPU)    (* the loop left with stop set *)
| Faulted             (* an access outside an array or a memory fault *)
| OutOfFuel.

(** [CPU::run()], at most [fuel] iterations. *)
Fixpoint run (fuel : nat) (c : CPU) : outcome :=
  if stop c then Halted c
  else
    match fuel with
    | O => OutOfFuel
    | S fuel' =>
        match step c with
        | Some c' => run fuel' c'
        | None => Faulted
        end
    end.

(** A floating-point division [x / y] of two integer-valued operands,
    kept as its operands: the quotient itself is not computed. *)
Record fquot : Type := mkQuot { dividend : Z; divisor : Z }.

(** The numbers [CPU::printFinalStats()] prints, line by line. *)
Record report : Type := mkReport {
  rep_pc : Z;
  rep_instructions : Z;
  rep_cycles : Z;
  rep_cpi : fquot;
  rep_bubbles : Z;
  rep_flushes : Z;
  rep_memops : fquot;
  rep_branches : fquot;
  rep_taken : fquot
}.

(** [CPU::printFinalStats()].  The accessors [getCycles] ... [getTaken]
    of Stats.h return the counters. *)
Definition printFinalStats (c : CPU) : report :=
  let st := stats c in
  mkReport (pc c) (instructions c) (Stats.cycles st)
    (mkQuot (Stats.cycles st) (instructions c))
    (Stats.bubbles st) (Stats.flushes st)
    (mkQuot (100 * Stats.memops st) (instructions c))
    (mkQuot (100 * Stats.branches st) (instructions c))
    (mkQuot (100 * Stats.taken st) (Stats.branches st)).

(** *** Instruction classes, read off the case labels of [decode] *)

(** [beq] and [bne]. *)
Definition is_branch (i : Z) : bool :=
  (opcode_of i =? 0x04) || (opcode_of i =? 0x05).

(** [lw] and [sw]. *)
Definition is_memop (i : Z) : bool :=
  (opcode_of i =? 0x23) || (opcode_of i =? 0x2b).

(** The cases that call [stats.flush]: [jr], [j], [jal], [beq], [bne]. *)
Definition is_transfer (i : Z) : bool :=
  ((opcode_of i =? 0x00) && (funct_of i =? 0x08)) ||
  (opcode_of i =? 0x02) || (opcode_of i =? 0x03) || is_branch i.

(** The trap request that reads an integer into a register. *)
Definition reads_input (i : Z) : bool :=
  (opcode_of i =? 0x1a) && (Z.land (addr_of i) 0xf =? 0x5).

(** The trap requests that set [stop]: request 0xa and every request
    without a case of its own. *)
Definition halts (i : Z) : bool :=
  (opcode_of i =? 0x1a) &&
  negb ((Z.land (addr_of i) 0xf =? 0x0) || (Z.land (addr_of i) 0xf =? 0x1) ||
        (Z.land (addr_of i) 0xf =? 0x5)).

(** [mult] and [div]. *)
Definition is_multdiv (i : Z) : bool :=
  (opcode_of i =? 0x00) && ((funct_of i =? 0x18) || (funct_of i =? 0x1a)).

(** The cases that assign [destReg]. *)
Definition sets_destReg (i : Z) : bool :=
  ((opcode_of i =? 0x00) &&
   ((funct_of i =? 0x00) || (funct_of i =? 0x03) || (funct_of i =? 0x10) ||
    (funct_of i =? 0x12) || (funct_of i =? 0x21) || (funct_of i =? 0x23) ||
    (funct_of i =? 0x2a))) ||
  (opcode_of i =? 0x03) || (opcode_of i =? 0x09) || (opcode_of i =? 0x0c) ||
  (opcode_of i =? 0x23).

(** The statements at the head of [decode] that put the control signals
    back to their defaults. *)
Definition reset_signals (c : CPU) : CPU :=
  set_storeData 0 (set_aluOp ADD (set_opIsMultDiv false
    (set_opIsStore false (set_opIsLoad false (set_writeDest false c))))).

(** [destReg] names a register. *)
Definition destReg_ok (c : CPU) : Prop := 0 <= destReg c < NREGS.

End Driver.

End CPU.

(** ** Spec-side readings of the hazard scan

    Two ways to read "the stage positions that hold a pending write to
    [r]" when [registerSrc] is entered, both over the scanned range
    [EXE1 .. MEM2] of the slot array as it is at the call. *)

(** The scanned stage positions, in scan order. *)
Definition scanned_stages : list Z :=
  [Stats.EXE1; Stats.EXE2; Stats.MEM1; Stats.MEM2].

(** Whether the slot of stage [i] holds [r]. *)
Definition holds (r : Z) (s : Stats.Stats) (i : Z) : bool :=
  match arr_get (Stats.resultReg s) i with
  | Some v => v =? r
  | None => false
  end.

(** The stage positions among [scanned_stages] whose slot holds [r]. *)
Definition pending_stages (r : Z) (s : Stats.Stats) : list Z :=
  List.filter (holds r s) scanned_stages.

(** One bubble per stage from each such position up to writeback, summed
    over every position: the count the claim's wording gives. *)
Definition bubbles_per_pending_stage (r : Z) (s : Stats.Stats) : Z :=
  foldr (fun i acc => (Stats.WB - i) + acc) 0 (pending_stages r s).

(** The same distance, for the earliest such position only. *)
Definition bubbles_first_pending_stage (r : Z) (s : Stats.Stats) : Z :=
  match pending_stages r s with
  | i :: _ => Stats.WB - i
  | [] => 0
  end.

(** One iteration of [insertFlush] as the spec words it: the cycle and
    flush counters go up by one and the slot array is shifted exactly as
    one [advanceClock] does. *)
Definition flush_by_clock (s : Stats.Stats) : option Stats.Stats :=
  s' ← Stats.clock s;
  Some (Stats.with_flushes (Stats.flushes s' + 1) s').

(** A tracker state with two in-flight writes to register 5, at EXE1
    and at MEM1. *)
Definition two_writers : Stats.Stats :=
  Stats.mkStats 10 0 0 0 0 0 [-1; -1; -1; 5; -1; 5; -1; -1].

(** [s'] differs from [s] by stall cycles only: the slot array keeps its
    size, every bubble is a cycle, and no other counter moves. *)
Definition stalls_only (s s' : Stats.Stats) : Prop :=
  Stats.wf s' /\
  Stats.flushes s' = Stats.flushes s /\
  Stats.memops s' = Stats.memops s /\
  Stats.branches s' = Stats.branches s /\
  Stats.taken s' = Stats.taken s /\
  Stats.bubbles s <= Stats.bubbles s' /\
  Stats.cycles s' - Stats.cycles s = Stats.bubbles s' - Stats.bubbles s.

(** The two fetch slots are empty. *)
Definition front_empty (s : Stats.Stats) : Prop :=
  arr_get (Stats.resultReg s) Stats.IF1 = Some (-1) /\
  arr_get (Stats.resultReg s) Stats.IF2 = Some (-1).

(** [s'] has the counters other than cycles and bubbles of [s]. *)
Definition same_events (s s' : Stats.Stats) : Prop :=
  Stats.flushes s' = Stats.flushes s /\ Stats.memops s' = Stats.memops s /\
  Stats.branches s' = Stats.branches s /\ Stats.taken s' = Stats.taken s.

(** [s'] has the three front-end slots of [s]. *)
Definition same_front_end (s s' : Stats.Stats) : Prop :=
  arr_get (Stats.resultReg s') Stats.IF1 = arr_get (Stats.resultReg s) Stats.IF1 /\
  arr_get (Stats.resultReg s') Stats.IF2 = arr_get (Stats.resultReg s) Stats.IF2 /\
  arr_get (Stats.resultReg s') Stats.ID = arr_get (Stats.resultReg s) Stats.ID.

(** [s'] is [s] with [r] recorded at the decode stage. *)
Definition dest_only (r : Z) (s s' : Stats.Stats) : Prop :=
  Stats.wf s' /\ arr_get (Stats.resultReg s') Stats.ID = Some r /\
  Stats.cycles s' = Stats.cycles s /\ Stats.flushes s' = Stats.flushes s /\
  Stats.bubbles s' = Stats.bubbles s /\ Stats.memops s' = Stats.memops s /\
  Stats.branches s' = Stats.branches s /\ Stats.taken s' = Stats.taken s.

(** [s'] is [s] after two flush cycles. *)
Definition flushed_2 (s s' : Stats.Stats) : Prop :=
  Stats.wf s' /\
  Stats.flushes s' = Stats.flushes s + 2 /\ Stats.cycles s' = Stats.cycles s + 2 /\
  Stats.bubbles s' = Stats.bubbles s /\ Stats.memops s' = Stats.memops s /\
  Stats.branches s' = Stats.branches s /\ Stats.taken s' = Stats.taken s.

(** [s'] differs from [s] by stall and flush cycles only: every cycle
    added is a bubble or a flush. *)
Definition accounted (s s' : Stats.Stats) : Prop :=
  Stats.wf s' /\
  Stats.bubbles s <= Stats.bubbles s' /\
  Stats.flushes s <= Stats.flushes s' /\
  Stats.cycles s' - Stats.cycles s =
    (Stats.bubbles s' - Stats.bubbles s) + (Stats.flushes s' - Stats.flushes s).

Section DecodePost.
Import CPU.
Context {Mem Alu : Type}.

(** What one [decode] does to the driver, by instruction class. *)
Definition decode_post (c c' : CPU (Mem := Mem) (Alu := Alu)) : Prop :=
  let i := instr c in
  wf c' /\
  accounted (stats c) (stats c') /\
  Stats.flushes (stats c') =
    Stats.flushes (stats c) + (if is_transfer i then 2 else 0) /\
  Stats.memops (stats c') =
    Stats.memops (stats c) + (if is_memop i then 1 else 0) /\
  Stats.branches (stats c') =
    Stats.branches (stats c) + (if is_branch i then 1 else 0) /\
  Stats.taken (stats c') =
    Stats.taken (stats c) + (if is_branch i then 1 else 0) /\
  stop c' = stop c || halts i /\
  (reads_input i = false -> regFile c' = regFile c) /\
  (is_transfer i = false -> pc c' = pc c) /\
  (if sets_destReg i then destReg_ok c' else destReg c' = destReg c) /\
  (writeDest c' = true -> sets_destReg i = true \/ opcode_of i = 0x0f) /\
  opIsLoad c' = (opcode_of i =? 0x23) /\
  opIsStore c' = (opcode_of i =? 0x2b) /\
  hi c' = hi c /\ lo c' = lo c /\ dMem c' = dMem c /\ iMem c' = iMem c /\
  alu c' = alu c /\ instructions c' = instructions c /\ instr c' = instr c.

End DecodePost.

(** ** A test bench

    Modelled from the spec: Memory.cpp and ALU.cpp are not among the
    sources.  The spec describes the memory as word-addressed with aligned
    32-bit loads and stores, and the arithmetic unit as a pure function of
    (operation, operand, operand) that also keeps the two halves of a wide
    multiply or divide result.  The bench fixes one such memory and one
    such unit so that the driver can be run on concrete programs.  The
    theorems about the driver hold for every memory and every unit; the
    bench only instantiates them. *)

Module Bench.
Import CPU.

Record bmem : Type := mkMem { base : Z; cells : list Z }.

Definition loadWord (m : bmem) (a : Z) : option Z :=
  let off := a - base m in
  if off mod 4 =? 0 then arr_get (cells m) (off / 4) else None.

Definition storeWord (d a : Z) (m : bmem) : option bmem :=
  let off := a - base m in
  if off mod 4 =? 0
  then (l ← arr_set (cells m) (off / 4) d; Some (mkMem (base m) l))
  else None.

Definition getSize (m : bmem) : Z := 4 * Z.of_nat (length (cells m)).

(** The unit's state: the upper and lower half of the last wide result. *)
Definition balu : Type := (Z * Z)%type.

Definition alu_op (op : ALU_OP) (a b : Z) (st : balu) : Z * balu :=
  match op with
  | ADD => (wrap32 (a + b), st)
  | SHF_L => (wrap32 (Z.shiftl a b), st)
  | SHF_R => (wrap32 (Z.shiftr (to_int32 a) b), st)
  | AND => (Z.land a b, st)
  | CMP_LT => ((if to_int32 a <? to_int32 b then 1 else 0), st)
  | MUL =>
      let p := to_int32 a * to_int32 b in
      (wrap32 p, (wrap32 (Z.shiftr p 32), wrap32 p))
  | DIV =>
      if b =? 0 then (0, st)
      else
        let q := Z.quot (to_int32 a) (to_int32 b) in
        let r := Z.rem (to_int32 a) (to_int32 b) in
        (wrap32 q, (wrap32 r, wrap32 q))
  end.

Definition getUpper (st : balu) : Z := fst st.
Definition getLower (st : balu) : Z := snd st.

(** Instruction words. *)
Definition enc_r (rs rt rd shamt funct : Z) : Z :=
  Z.lor (Z.shiftl rs 21) (Z.lor (Z.shiftl rt 16)
    (Z.lor (Z.shiftl rd 11) (Z.lor (Z.shiftl shamt 6) funct))).

Definition enc_i (opcode rs rt imm : Z) : Z :=
  Z.lor (Z.shiftl opcode 26) (Z.lor (Z.shiftl rs 21)
    (Z.lor (Z.shiftl rt 16) (Z.land imm 0xffff))).

Definition enc_trap (rs rt code : Z) : Z :=
  Z.lor (Z.shiftl 0x1a 26) (Z.lor (Z.shiftl rs 21) (Z.lor (Z.shiftl rt 16) code)).

Definition text_base : Z := 0x400000.
Definition data_base : Z := 0x10000000.

(** The storage of a [CPU] object before its constructor runs; [input] is
    what the run will find on [cin]. *)
Definition raw (input : list Z) : CPU (Mem := bmem) (Alu := balu) :=
  mkCPU 0 (mkMem 0 []) (mkMem 0 []) (0, 0) [] 0 0 0 false 0 false false false
    ADD 0 0 0 0 0 0 false
    (Stats.mkStats 0 0 0 0 0 0 []) input [] [].

(** A freshly constructed driver over program [prog] and 16 data words. *)
Definition boot (prog : list Z) (input : list Z) : option CPU :=
  construct getSize (raw input) text_base
    (mkMem text_base prog) (mkMem data_base (replicate 16 0)).

(** The register file the constructor leaves. *)
Definition regs0 : list Z :=
  <[29%nat := data_base + 64]> (<[28%nat := 0x10008000]> (replicate 32 0)).

(** What [boot] returns. *)
Definition booted (prog : list Z) (input : list Z) : CPU :=
  mkCPU text_base (mkMem text_base prog) (mkMem data_base (replicate 16 0))
    (0, 0) regs0 0 0 0 false 0 false false false ADD 0 0 0 0 0 0 false
    Stats.init input [] [].

(** The driver just after it has fetched the word [w] as its first
    instruction. *)
Definition fetched (w : Z) (input : list Z) : CPU :=
  mkCPU (text_base + 4) (mkMem text_base [w]) (mkMem data_base (replicate 16 0))
    (0, 0) regs0 0 0 w false 0 false false false ADD 0 0 0 0 0 1 false
    Stats.init input [] [].

(** beq $zero, $gp, 5: on a fresh driver the operands differ. *)
Definition beq_zero_gp : Z := enc_i 0x04 0 28 5.

(** Three additions into distinct registers from $zero, then the stop
    request. *)
Definition prog_independent : list Z :=
  [enc_i 0x09 0 1 1; enc_i 0x09 0 2 2; enc_i 0x09 0 3 3; enc_trap 0 0 0xa].

(** A word whose opcode field, 0x3f, has no case, then the stop request. *)
Definition prog_unknown_opcode : list Z := [enc_i 0x3f 0 0 0; enc_trap 0 0 0xa].

(** The read request with rt = 0. *)
Definition trap_read_zero : Z := enc_trap 0 0 0x5.

(** addiu $5, $zero, 7 and then lui $3, 1. *)
Definition prog_lui : list Z := [enc_i 0x09 0 5 7; enc_i 0x0f 0 3 1].

(** slt $3, $1, $2 and addu $3, $1, $2. *)
Definition slt_3_1_2 : Z := enc_r 1 2 3 0 0x2a.

(** sw $gp, -4($sp) and lw $1, -4($sp): the last data word. *)
Definition sw_gp_top : Z := enc_i 0x2b 29 28 (-4).
Definition lw_1_top : Z := enc_i 0x23 29 1 (-4).

Definition bstep : CPU -> option CPU :=
  step loadWord storeWord alu_op getUpper getLower.

Definition brun (fuel : nat) : CPU -> outcome :=
  run loadWord storeWord alu_op getUpper getLower fuel.

End Bench.

(** ** Facts about the tracker *)

Module StatsFacts.
Import Stats.

Lemma wf_slots (s : Stats) :
  wf s ->
  exists a0 a1 a2 a3 a4 a5 a6 a7, resultReg s = [a0; a1; a2; a3; a4; a5; a6; a7].
Proof.
  unfold wf. destruct s as [c f b m br t l]; simpl.
  do 8 (destruct l as [|? l]; [discriminate|]).
  destruct l; [|discriminate]. intros _. repeat eexists.
Qed.

Lemma init_wf : wf init.
Proof. reflexivity. Qed.

(** On an eight-slot array the operations are total and have closed forms. *)

Lemma clock_slots c f b m br t a0 a1 a2 a3 a4 a5 a6 a7 :
  clock (mkStats c f b m br t [a0; a1; a2; a3; a4; a5; a6; a7]) =
  Some (mkStats (c + 1) f b m br t [-1; a0; a1; a2; a3; a4; a5; a6]).
Proof. reflexivity. Qed.

Lemma bubble_slots c f b m br t a0 a1 a2 a3 a4 a5 a6 a7 :
  bubble (mkStats c f b m br t [a0; a1; a2; a3; a4; a5; a6; a7]) =
  Some (mkStats (c + 1) f (b + 1) m br t [a0; a1; a2; -1; a3; a4; a5; a6]).
Proof. reflexivity. Qed.

Lemma registerDest_slots r c f b m br t a0 a1 a2 a3 a4 a5 a6 a7 :
  registerDest r (mkStats c f b m br t [a0; a1; a2; a3; a4; a5; a6; a7]) =
  Some (mkStats c f b m br t [a0; a1; r; a3; a4; a5; a6; a7]).
Proof. reflexivity. Qed.

Ltac run_bubbles :=
  cbn [repeat_m];
  repeat (rewrite bubble_slots; cbn [mbind option_bind]).

Lemma bubble_4 c f b m br t a0 a1 a2 a3 a4 a5 a6 a7 :
  repeat_m 4 bubble (mkStats c f b m br t [a0; a1; a2; a3; a4; a5; a6; a7]) =
  Some (mkStats (c + 4) f (b + 4) m br t [a0; a1; a2; -1; -1; -1; -1; a3]).
Proof. run_bubbles. do 2 f_equal; lia. Qed.

Lemma bubble_3 c f b m br t a0 a1 a2 a3 a4 a5 a6 a7 :
  repeat_m 3 bubble (mkStats c f b m br t [a0; a1; a2; a3; a4; a5; a6; a7]) =
  Some (mkStats (c + 3) f (b + 3) m br t [a0; a1; a2; -1; -1; -1; a3; a4]).
Proof. run_bubbles. do 2 f_equal; lia. Qed.

Lemma bubble_2 c f b m br t a0 a1 a2 a3 a4 a5 a6 a7 :
  repeat_m 2 bubble (mkStats c f b m br t [a0; a1; a2; a3; a4; a5; a6; a7]) =
  Some (mkStats (c + 2) f (b + 2) m br t [a0; a1; a2; -1; -1; a3; a4; a5]).
Proof. run_bubbles. do 2 f_equal; lia. Qed.

Lemma bubble_1 c f b m br t a0 a1 a2 a3 a4 a5 a6 a7 :
  repeat_m 1 bubble (mkStats c f b m br t [a0; a1; a2; a3; a4; a5; a6; a7]) =
  Some (mkStats (c + 1) f (b + 1) m br t [a0; a1; a2; -1; a3; a4; a5; a6]).
Proof. run_bubbles. reflexivity. Qed.

(** The scan of [registerSrc], stage by stage. *)

Lemma registerSrc_unrolled r s :
  r <> 0 ->
  registerSrc r s =
  (s ← registerSrc_at EXE1 r s; s ← registerSrc_at EXE2 r s;
   s ← registerSrc_at MEM1 r s; s ← registerSrc_at MEM2 r s; Some s).
Proof.
  intros H. unfold registerSrc. destruct (Z.eqb_spec r 0); [done|]. reflexivity.
Qed.

Lemma registerSrc_at_EXE1 r c f b m br t a0 a1 a2 a3 a4 a5 a6 a7 :
  registerSrc_at EXE1 r (mkStats c f b m br t [a0; a1; a2; a3; a4; a5; a6; a7]) =
  Some (if a3 =? r
        then mkStats (c + 4) f (b + 4) m br t [a0; a1; a2; -1; -1; -1; -1; a3]
        else mkStats c f b m br t [a0; a1; a2; a3; a4; a5; a6; a7]).
Proof.
  unfold registerSrc_at. change (arr_get _ EXE1) with (Some a3).
  cbn [mbind option_bind]. destruct (a3 =? r); [|done].
  change (Z.to_nat (WB - EXE1)) with 4%nat. apply bubble_4.
Qed.

Lemma registerSrc_at_EXE2 r c f b m br t a0 a1 a2 a3 a4 a5 a6 a7 :
  registerSrc_at EXE2 r (mkStats c f b m br t [a0; a1; a2; a3; a4; a5; a6; a7]) =
  Some (if a4 =? r
        then mkStats (c + 3) f (b + 3) m br t [a0; a1; a2; -1; -1; -1; a3; a4]
        else mkStats c f b m br t [a0; a1; a2; a3; a4; a5; a6; a7]).
Proof.
  unfold registerSrc_at. change (arr_get _ EXE2) with (Some a4).
  cbn [mbind option_bind]. destruct (a4 =? r); [|done].
  change (Z.to_nat (WB - EXE2)) with 3%nat. apply bubble_3.
Qed.

Lemma registerSrc_at_MEM1 r c f b m br t a0 a1 a2 a3 a4 a5 a6 a7 :
  registerSrc_at MEM1 r (mkStats c f b m br t [a0; a1; a2; a3; a4; a5; a6; a7]) =
  Some (if a5 =? r
        then mkStats (c + 2) f (b + 2) m br t [a0; a1; a2; -1; -1; a3; a4; a5]
        else mkStats c f b m br t [a0; a1; a2; a3; a4; a5; a6; a7]).
Proof.
  unfold registerSrc_at. change (arr_get _ MEM1) with (Some a5).
  cbn [mbind option_bind]. destruct (a5 =? r); [|done].
  change (Z.to_nat (WB - MEM1)) with 2%nat. apply bubble_2.
Qed.

Lemma registerSrc_at_MEM2 r c f b m br t a0 a1 a2 a3 a4 a5 a6 a7 :
  registerSrc_at MEM2 r (mkStats c f b m br t [a0; a1; a2; a3; a4; a5; a6; a7]) =
  Some (if a6 =? r
        then mkStats (c + 1) f (b + 1) m br t [a0; a1; a2; -1; a3; a4; a5; a6]
        else mkStats c f b m br t [a0; a1; a2; a3; a4; a5; a6; a7]).
Proof.
  unfold registerSrc_at. change (arr_get _ MEM2) with (Some a6).
  cbn [mbind option_bind]. destruct (a6 =? r); [|done].
  change (Z.to_nat (WB - MEM2)) with 1%nat. apply bubble_1.
Qed.

Ltac scan_stage :=
  first [ rewrite registerSrc_at_EXE1 | rewrite registerSrc_at_EXE2
        | rewrite registerSrc_at_MEM1 | rewrite registerSrc_at_MEM2 ];
  cbn [mbind option_bind].

Lemma stalls_only_refl s : wf s -> stalls_only s s.
Proof. unfold stalls_only. intuition lia. Qed.

Lemma stalls_only_trans s1 s2 s3 :
  stalls_only s1 s2 -> stalls_only s2 s3 -> stalls_only s1 s3.
Proof. unfold stalls_only. intuition lia. Qed.

(** [registerSrc] always returns on an eight-slot tracker, and whatever it
    finds it only inserts stall cycles. *)
Lemma registerSrc_stalls_only r s :
  wf s -> exists s', registerSrc r s = Some s' /\ stalls_only s s'.
Proof.
  intros Hwf. destruct (Z.eq_dec r 0) as [->|Hr].
  { exists s. split; [reflexivity | by apply stalls_only_refl]. }
  destruct (wf_slots s Hwf) as (a0&a1&a2&a3&a4&a5&a6&a7&E).
  destruct s as [c f b m br t l]; simpl in E; subst l.
  rewrite registerSrc_unrolled by done.
  scan_stage. destruct (a3 =? r);
    (scan_stage; match goal with |- context [if ?x =? r then _ else _] =>
                   destruct (x =? r) end);
    (scan_stage; match goal with |- context [if ?x =? r then _ else _] =>
                   destruct (x =? r) end);
    (scan_stage; match goal with |- context [if ?x =? r then _ else _] =>
                   destruct (x =? r) end);
    (eexists; split; [reflexivity|]);
    unfold stalls_only, wf; cbn [resultReg flushes memops branches taken bubbles cycles];
    repeat split; try reflexivity; lia.
Qed.

(** With no scanned slot holding [r], nothing is inserted. *)
Lemma registerSrc_clear r c f b m br t a0 a1 a2 a7 :
  r <> -1 ->
  registerSrc r (mkStats c f b m br t [a0; a1; a2; -1; -1; -1; -1; a7]) =
  Some (mkStats c f b m br t [a0; a1; a2; -1; -1; -1; -1; a7]).
Proof.
  intros Hr. destruct (Z.eq_dec r 0) as [->|H0]; [reflexivity|].
  rewrite registerSrc_unrolled by done.
  assert (Hm : (-1 =? r) = false) by lia.
  repeat (scan_stage; rewrite Hm). reflexivity.
Qed.

(** C9: a read of register 0 leaves the tracker exactly as it was,
    whatever the slot array holds: no bubble, no counter, no slot changes. *)
Theorem registerSrc_zero_unchanged (s : Stats) : registerSrc 0 s = Some s.
Proof. reflexivity. Qed.

(** [two_writers] arises from the tracker's own operations. *)
Lemma two_writers_reachable :
  (s ← registerDest 5 init; s ← clock s; s ← clock s;
   s ← registerDest 5 s; clock s) = Some two_writers.
Proof. vm_compute. reflexivity. Qed.

(** C3, as stated, fails: with register 5 pending at EXE1 and at MEM1 the
    wording gives (WB - EXE1) + (WB - MEM1) = 6 bubbles, and the scan
    inserts 4: the bubbles for EXE1 have emptied the slot at MEM1 before the
    scan reaches it. *)
Lemma registerSrc_two_writers_counterexample :
  pending_stages 5 two_writers = [EXE1; MEM1] /\
  bubbles_per_pending_stage 5 two_writers = 6 /\
  exists s', registerSrc 5 two_writers = Some s' /\
             bubbles s' = bubbles two_writers + 4 /\
             bubbles s' <> bubbles two_writers + bubbles_per_pending_stage 5 two_writers.
Proof.
  split; [vm_compute; reflexivity|]. split; [vm_compute; reflexivity|].
  exists (mkStats 14 0 4 0 0 0 [-1; -1; -1; -1; -1; -1; -1; 5]).
  split; [vm_compute; reflexivity|]. split; [reflexivity|].
  vm_compute. discriminate.
Qed.

(** C3, amended: for a register index [r] other than 0 (and other than
    the empty-slot sentinel), [registerSrc r] inserts exactly [WB - i]
    bubbles, where [i] is the earliest scanned stage whose slot holds [r]
    when the call is made, and none if there is no such stage; each
    insertion is one [bubble], adding 1 to the bubble count and 1 to the
    cycle count. *)
Theorem registerSrc_first_pending (s : Stats) (r : Z) :
  wf s -> r <> 0 -> r <> -1 ->
  exists s',
    registerSrc r s = Some s' /\
    repeat_m (Z.to_nat (bubbles_first_pending_stage r s)) bubble s = Some s' /\
    bubbles s' = bubbles s + bubbles_first_pending_stage r s /\
    cycles s' = cycles s + bubbles_first_pending_stage r s.
Proof.
  intros Hwf H0 H1. destruct (wf_slots s Hwf) as (a0&a1&a2&a3&a4&a5&a6&a7&E).
  destruct s as [c f b m br t l]; simpl in E; subst l. clear Hwf.
  assert (Hm : (-1 =? r) = false) by lia.
  rewrite registerSrc_unrolled by done.
  unfold bubbles_first_pending_stage, pending_stages, scanned_stages, holds.
  cbn [List.filter resultReg bubbles cycles].
  change (arr_get _ EXE1) with (Some a3). change (arr_get _ EXE2) with (Some a4).
  change (arr_get _ MEM1) with (Some a5). change (arr_get _ MEM2) with (Some a6).
  scan_stage. destruct (a3 =? r) eqn:E3.
  { repeat (scan_stage; rewrite Hm).
    eexists; split; [reflexivity|]. change (Z.to_nat (WB - EXE1)) with 4%nat.
    split; [apply bubble_4 | done]. }
  scan_stage. destruct (a4 =? r) eqn:E4.
  { scan_stage; rewrite Hm. scan_stage; rewrite E3.
    eexists; split; [reflexivity|]. change (Z.to_nat (WB - EXE2)) with 3%nat.
    split; [apply bubble_3 | done]. }
  scan_stage. destruct (a5 =? r) eqn:E5.
  { scan_stage; rewrite E4.
    eexists; split; [reflexivity|]. change (Z.to_nat (WB - MEM1)) with 2%nat.
    split; [apply bubble_2 | done]. }
  scan_stage. destruct (a6 =? r) eqn:E6.
  { eexists; split; [reflexivity|]. change (Z.to_nat (WB - MEM2)) with 1%nat.
    split; [apply bubble_1 | done]. }
  eexists; split; [reflexivity|]. cbn [repeat_m Z.to_nat].
  split; [reflexivity | split; cbn [bubbles cycles]; lia].
Qed.

Lemma registerSrc_first_pending_witness :
  wf two_writers /\ 5 <> 0 /\ 5 <> -1 /\
  exists s',
    registerSrc 5 two_writers = Some s' /\
    repeat_m (Z.to_nat (bubbles_first_pending_stage 5 two_writers)) bubble two_writers
      = Some s' /\
    bubbles s' = bubbles two_writers + bubbles_first_pending_stage 5 two_writers /\
    cycles s' = cycles two_writers + bubbles_first_pending_stage 5 two_writers.
Proof.
  split; [reflexivity|]. split; [lia|]. split; [lia|].
  apply (registerSrc_first_pending two_writers 5); [reflexivity | lia | lia].
Defined.

(** *** [flush] *)

Lemma arr_set_length a i v a' : arr_set a i v = Some a' -> length a' = length a.
Proof.
  unfold arr_set. destruct (in_bounds a i); [|discriminate].
  intros [= <-]. apply length_insert.
Qed.

Lemma shift_loop_length n lo a a' :
  shift_loop n lo a = Some a' -> length a' = length a.
Proof.
  revert a. induction n as [|n IH]; intros a; cbn [shift_loop].
  - by intros [= <-].
  - destruct (arr_get a _) as [v|]; [|discriminate]. cbn [mbind option_bind].
    destruct (arr_set a _ v) as [a1|] eqn:E1; [|discriminate]. cbn [mbind option_bind].
    intros H. rewrite (IH _ H). by apply arr_set_length in E1.
Qed.

Lemma flush_at_wf i s s' : flush_at i s = Some s' -> wf s -> wf s'.
Proof.
  destruct s as [c f b m br t l].
  unfold flush_at, wf, shift. cbn [resultReg with_cycles with_flushes with_resultReg].
  destruct (shift_loop _ _ _) as [a1|] eqn:E1; [|discriminate]. cbn [mbind option_bind].
  destruct (arr_set a1 i (-1)) as [a2|] eqn:E2; [|discriminate]. cbn [mbind option_bind].
  intros [= <-] Hwf. cbn [resultReg].
  apply arr_set_length in E2. apply shift_loop_length in E1.
  change (length a2 = Z.to_nat PIPESTAGES). congruence.
Qed.

Lemma flush_loop_wf n i s s' : flush_loop n i s = Some s' -> wf s -> wf s'.
Proof.
  revert i s. induction n as [|n IH]; intros i s; cbn [flush_loop].
  - by intros [= <-].
  - destruct (flush_at i s) as [s1|] eqn:E1; [|discriminate]. cbn [mbind option_bind].
    intros H Hwf. eapply IH; [exact H|]. by eapply flush_at_wf.
Qed.

Lemma flush_loop_app n m i s :
  flush_loop (n + m) i s = (s' ← flush_loop n i s; flush_loop m (i + Z.of_nat n) s').
Proof.
  revert i s. induction n as [|n IH]; intros i s.
  - cbn [flush_loop Nat.add mbind option_bind]. by rewrite Z.add_0_r.
  - cbn [flush_loop Nat.add]. destruct (flush_at i s) as [s1|]; [|done].
    cbn [mbind option_bind]. rewrite IH. do 2 f_equal. lia.
Qed.

(** The store after the inner loop lands outside the array once the outer
    counter has reached the number of stages. *)
Lemma flush_at_stages_faults s : wf s -> flush_at PIPESTAGES s = None.
Proof.
  intros Hwf. destruct (wf_slots s Hwf) as (a0&a1&a2&a3&a4&a5&a6&a7&E).
  destruct s as [c f b m br t l]; simpl in E; subst l. reflexivity.
Qed.

(** Up to [PIPESTAGES] iterations the slot that the outer counter names
    is empty already, and [flush] agrees with the spec's wording. *)
Lemma flush_agrees_upto_stages s count :
  wf s -> 0 <= count <= PIPESTAGES ->
  flush count s = repeat_m (Z.to_nat count) flush_by_clock s.
Proof.
  intros Hwf Hc. destruct (wf_slots s Hwf) as (a0&a1&a2&a3&a4&a5&a6&a7&E).
  destruct s as [c f b m br t l]; simpl in E; subst l.
  unfold flush. assert (Hn : (Z.to_nat count <= 8)%nat) by (unfold PIPESTAGES in Hc; lia).
  destruct (Z.to_nat count) as [|n]; [reflexivity|].
  do 8 (destruct n as [|n]; [reflexivity|]). lia.
Qed.

(** C4 at the failing input: the claim covers every count, and for a
    count above the number of stages the ninth iteration of [flush]
    stores at [resultReg[8]], past the end of the eight-slot array. *)
Theorem flush_beyond_stages_faults (s : Stats) (count : Z) :
  wf s -> PIPESTAGES < count -> flush count s = None.
Proof.
  intros Hwf Hc. unfold flush.
  replace (Z.to_nat count) with (8 + S (Z.to_nat count - 9))%nat
    by (unfold PIPESTAGES in Hc; lia).
  rewrite flush_loop_app.
  destruct (flush_loop 8 0 s) as [s1|] eqn:E1; [|reflexivity].
  cbn [mbind option_bind flush_loop].
  change (0 + Z.of_nat 8) with PIPESTAGES.
  rewrite flush_at_stages_faults; [reflexivity|]. by eapply flush_loop_wf.
Qed.

Lemma flush_beyond_stages_faults_witness :
  wf init /\ PIPESTAGES < 9 /\ flush 9 init = None.
Proof.
  split; [reflexivity|]. split; [reflexivity|].
  apply (flush_beyond_stages_faults init 9); reflexivity.
Defined.

(** The driver only ever asks for two flush cycles. *)
Lemma flush_2_slots c f b m br t a0 a1 a2 a3 a4 a5 a6 a7 :
  flush 2 (mkStats c f b m br t [a0; a1; a2; a3; a4; a5; a6; a7]) =
  Some (mkStats (c + 2) (f + 2) b m br t [-1; -1; a0; a1; a2; a3; a4; a5]).
Proof.
  transitivity (Some (mkStats (c + 1 + 1) (f + 1 + 1) b m br t
                        [-1; -1; a0; a1; a2; a3; a4; a5])); [reflexivity|].
  do 2 f_equal; lia.
Qed.

Lemma flush_2_counts s :
  wf s ->
  exists s', flush 2 s = Some s' /\ wf s' /\
    flushes s' = flushes s + 2 /\ cycles s' = cycles s + 2 /\
    bubbles s' = bubbles s /\ memops s' = memops s /\
    branches s' = branches s /\ taken s' = taken s.
Proof.
  intros Hwf. destruct (wf_slots s Hwf) as (a0&a1&a2&a3&a4&a5&a6&a7&E).
  destruct s as [c f b m br t l]; simpl in E; subst l.
  rewrite flush_2_slots. eexists. split; [reflexivity|]. by repeat split.
Qed.

(** ** More about the tracker *)

Ltac explicit_slots s Hwf :=
  let a0 := fresh "a0" in let a1 := fresh "a1" in let a2 := fresh "a2" in
  let a3 := fresh "a3" in let a4 := fresh "a4" in let a5 := fresh "a5" in
  let a6 := fresh "a6" in let a7 := fresh "a7" in let E := fresh "E" in
  destruct (wf_slots s Hwf) as (a0&a1&a2&a3&a4&a5&a6&a7&E);
  destruct s as [? ? ? ? ? ? ?]; simpl in E; subst.

(** One clock tick adds a cycle and nothing else to the counters, empties
    the first fetch slot and hands every other slot the content of the
    stage before it; what was in writeback is gone. *)
Theorem clock_shifts (s : Stats) :
  wf s ->
  exists s', clock s = Some s' /\ wf s' /\
    cycles s' = cycles s + 1 /\ bubbles s' = bubbles s /\ same_events s s' /\
    arr_get (resultReg s') IF1 = Some (-1) /\
    forall i, IF1 < i <= WB ->
      arr_get (resultReg s') i = arr_get (resultReg s) (i - 1).
Proof.
  intros Hwf. explicit_slots s Hwf. rewrite clock_slots.
  eexists. split; [reflexivity|]. do 5 (split; [by repeat split|]).
  intros i Hi. unfold IF1, WB in Hi.
  assert (i = 1 \/ i = 2 \/ i = 3 \/ i = 4 \/ i = 5 \/ i = 6 \/ i = 7) as Hc by lia.
  repeat (destruct Hc as [->|Hc]; [reflexivity|]). subst. reflexivity.
Qed.

Lemma clock_shifts_witness :
  wf two_writers /\
  exists s', clock two_writers = Some s' /\ wf s' /\
    cycles s' = cycles two_writers + 1 /\ bubbles s' = bubbles two_writers /\
    same_events two_writers s' /\
    arr_get (resultReg s') IF1 = Some (-1) /\
    forall i, IF1 < i <= WB ->
      arr_get (resultReg s') i = arr_get (resultReg two_writers) (i - 1).
Proof. split; [reflexivity|]. apply (clock_shifts two_writers). reflexivity. Defined.

(** One bubble is one stall cycle: the bubble and cycle counters go up by
    one, the three front-end slots hold their content, the first execute
    slot is emptied and the later stages move on by one. *)
Theorem bubble_holds_front_end (s : Stats) :
  wf s ->
  exists s', bubble s = Some s' /\ wf s' /\
    cycles s' = cycles s + 1 /\ bubbles s' = bubbles s + 1 /\
    same_events s s' /\ same_front_end s s' /\
    arr_get (resultReg s') EXE1 = Some (-1) /\
    forall i, EXE1 < i <= WB ->
      arr_get (resultReg s') i = arr_get (resultReg s) (i - 1).
Proof.
  intros Hwf. explicit_slots s Hwf. rewrite bubble_slots.
  eexists. split; [reflexivity|]. do 6 (split; [by repeat split|]).
  intros i Hi. unfold EXE1, WB in Hi.
  assert (i = 4 \/ i = 5 \/ i = 6 \/ i = 7) as Hc by lia.
  repeat (destruct Hc as [->|Hc]; [reflexivity|]). subst. reflexivity.
Qed.

Lemma bubble_holds_front_end_witness :
  wf two_writers /\
  exists s', bubble two_writers = Some s' /\ wf s' /\
    cycles s' = cycles two_writers + 1 /\ bubbles s' = bubbles two_writers + 1 /\
    same_events two_writers s' /\ same_front_end two_writers s' /\
    arr_get (resultReg s') EXE1 = Some (-1) /\
    forall i, EXE1 < i <= WB ->
      arr_get (resultReg s') i = arr_get (resultReg two_writers) (i - 1).
Proof.
  split; [reflexivity|]. apply (bubble_holds_front_end two_writers). reflexivity.
Defined.

(** The scan in closed form, for a register index that is neither 0 nor
    the empty-slot sentinel. *)
Lemma registerSrc_slots r c f b m br t a0 a1 a2 a3 a4 a5 a6 a7 :
  r <> 0 -> r <> -1 ->
  registerSrc r (mkStats c f b m br t [a0; a1; a2; a3; a4; a5; a6; a7]) =
  Some (if a3 =? r
        then mkStats (c + 4) f (b + 4) m br t [a0; a1; a2; -1; -1; -1; -1; a3]
        else if a4 =? r
        then mkStats (c + 3) f (b + 3) m br t [a0; a1; a2; -1; -1; -1; a3; a4]
        else if a5 =? r
        then mkStats (c + 2) f (b + 2) m br t [a0; a1; a2; -1; -1; a3; a4; a5]
        else if a6 =? r
        then mkStats (c + 1) f (b + 1) m br t [a0; a1; a2; -1; a3; a4; a5; a6]
        else mkStats c f b m br t [a0; a1; a2; a3; a4; a5; a6; a7]).
Proof.
  intros H0 H1. assert (Hm : (-1 =? r) = false) by lia.
  rewrite registerSrc_unrolled by done.
  scan_stage. destruct (a3 =? r) eqn:E3.
  { by repeat (scan_stage; rewrite Hm). }
  scan_stage. destruct (a4 =? r) eqn:E4.
  { scan_stage; rewrite Hm. scan_stage; rewrite E3. done. }
  scan_stage. destruct (a5 =? r) eqn:E5.
  { scan_stage; rewrite E4. done. }
  scan_stage. by destruct (a6 =? r).
Qed.

(** Once [registerSrc r] has returned, no scanned stage holds a pending
    write to [r] any more: reading [r] again costs nothing. *)
Theorem registerSrc_resolves_hazard (s : Stats) (r : Z) :
  wf s -> r <> 0 -> r <> -1 ->
  exists s', registerSrc r s = Some s' /\
             pending_stages r s' = [] /\ registerSrc r s' = Some s'.
Proof.
  intros Hwf H0 H1. explicit_slots s Hwf.
  assert (Hm : (-1 =? r) = false) by lia.
  rewrite registerSrc_slots by done.
  unfold pending_stages, scanned_stages, holds.
  destruct (a3 =? r) eqn:E3; [|destruct (a4 =? r) eqn:E4;
    [|destruct (a5 =? r) eqn:E5; [|destruct (a6 =? r) eqn:E6]]];
    (eexists; split; [reflexivity|]);
    rewrite registerSrc_slots by done;
    cbn [List.filter resultReg];
    change (arr_get _ EXE1) with (Some a3) || idtac;
    repeat match goal with
    | |- context [arr_get ?l ?i] =>
        let v := eval cbv in (arr_get l i) in change (arr_get l i) with v
    end;
    rewrite ?Hm, ?E3, ?E4, ?E5, ?E6; done.
Qed.

Lemma registerSrc_resolves_hazard_witness :
  wf two_writers /\ 5 <> 0 /\ 5 <> -1 /\
  exists s', registerSrc 5 two_writers = Some s' /\
             pending_stages 5 s' = [] /\ registerSrc 5 s' = Some s'.
Proof.
  split; [reflexivity|]. split; [lia|]. split; [lia|].
  apply (registerSrc_resolves_hazard two_writers 5); [reflexivity | lia | lia].
Defined.

(** A read never stalls for more than the four stages between the first
    execute stage and writeback. *)
Theorem registerSrc_stall_bound (s : Stats) (r : Z) :
  wf s -> r <> -1 ->
  exists s', registerSrc r s = Some s' /\
             bubbles s <= bubbles s' <= bubbles s + (WB - EXE1).
Proof.
  intros Hwf H1. destruct (Z.eq_dec r 0) as [->|H0].
  { exists s. split; [reflexivity|]. unfold WB, EXE1. lia. }
  explicit_slots s Hwf. rewrite registerSrc_slots by done.
  eexists. split; [reflexivity|]. unfold WB, EXE1.
  destruct (a3 =? r), (a4 =? r), (a5 =? r), (a6 =? r); cbn [bubbles]; lia.
Qed.

Lemma registerSrc_stall_bound_witness :
  wf two_writers /\ 5 <> -1 /\
  exists s', registerSrc 5 two_writers = Some s' /\
             bubbles two_writers <= bubbles s' <= bubbles two_writers + (WB - EXE1).
Proof.
  split; [reflexivity|]. split; [lia|].
  apply (registerSrc_stall_bound two_writers 5); [reflexivity | lia].
Defined.

Lemma registerSrc_frame (s : Stats) (r : Z) :
  wf s ->
  exists s', registerSrc r s = Some s' /\ wf s' /\
    cycles s' - cycles s = bubbles s' - bubbles s /\
    bubbles s <= bubbles s' /\
    same_events s s' /\ same_front_end s s'.
Proof.
  intros Hwf. destruct (Z.eq_dec r 0) as [->|Hr].
  { exists s. split; [reflexivity|]. unfold same_events, same_front_end.
    repeat split; try done; lia. }
  explicit_slots s Hwf. rewrite registerSrc_unrolled by done.
  scan_stage. destruct (a3 =? r);
    (scan_stage; match goal with |- context [if ?x =? r then _ else _] =>
                   destruct (x =? r) end);
    (scan_stage; match goal with |- context [if ?x =? r then _ else _] =>
                   destruct (x =? r) end);
    (scan_stage; match goal with |- context [if ?x =? r then _ else _] =>
                   destruct (x =? r) end);
    (eexists; split; [reflexivity|]);
    unfold same_events, same_front_end, wf;
    cbn [resultReg flushes memops branches taken bubbles cycles];
    repeat split; try reflexivity; lia.
Qed.

(** Whatever index is read, [registerSrc] only stalls: every cycle it
    adds is a bubble, the flush, memory-operation and branch counters keep
    their values, and the three front-end slots keep their content. *)
Theorem registerSrc_only_stalls (s : Stats) (r : Z) :
  wf s ->
  exists s', registerSrc r s = Some s' /\ wf s' /\
    cycles s' - cycles s = bubbles s' - bubbles s /\
    bubbles s <= bubbles s' /\
    same_events s s' /\ same_front_end s s'.
Proof. apply registerSrc_frame. Qed.

Lemma registerSrc_only_stalls_witness :
  wf two_writers /\
  exists s', registerSrc 5 two_writers = Some s' /\ wf s' /\
    cycles s' - cycles two_writers = bubbles s' - bubbles two_writers /\
    bubbles two_writers <= bubbles s' /\
    same_events two_writers s' /\ same_front_end two_writers s'.
Proof.
  split; [reflexivity|]. apply (registerSrc_only_stalls two_writers 5). reflexivity.
Defined.

Lemma flush_agrees_upto_stages_witness :
  wf two_writers /\ 0 <= 2 <= PIPESTAGES /\
  flush 2 two_writers = repeat_m (Z.to_nat 2) flush_by_clock two_writers.
Proof.
  split; [reflexivity|]. split; [unfold PIPESTAGES; lia|].
  apply (flush_agrees_upto_stages two_writers 2); [reflexivity|].
  unfold PIPESTAGES; lia.
Defined.

(** Eight clock ticks drain the pipeline: whatever was in flight, every
    slot is empty afterwards. *)
Theorem clock_drains_pipeline (s : Stats) :
  wf s ->
  exists s', repeat_m 8 clock s = Some s' /\
    cycles s' = cycles s + 8 /\
    resultReg s' = replicate 8 (-1).
Proof.
  intros Hwf. explicit_slots s Hwf. cbn [repeat_m].
  repeat (rewrite clock_slots; cbn [mbind option_bind]).
  eexists. split; [reflexivity|]. cbn [cycles resultReg]. split; [lia|reflexivity].
Qed.

Lemma clock_drains_pipeline_witness :
  wf two_writers /\
  exists s', repeat_m 8 clock two_writers = Some s' /\
    cycles s' = cycles two_writers + 8 /\
    resultReg s' = replicate 8 (-1).
Proof. split; [reflexivity|]. apply (clock_drains_pipeline two_writers). reflexivity. Defined.

(** Read after write: when a destination [r] is recorded and read again
    [k] clock ticks later, the read stalls for [5 - k] cycles, for every
    [k] from 1 to 5, whatever older writes are still in flight.  (The fetch
    slots are empty in every state the tracker reaches.) *)
Theorem read_after_write_stall (s : Stats) (r : Z) (k : nat) :
  wf s -> front_empty s -> r <> 0 -> r <> -1 -> (1 <= k <= 5)%nat ->
  exists s',
    (s1 ← registerDest r s; s2 ← repeat_m k clock s1; registerSrc r s2) = Some s' /\
    bubbles s' = bubbles s + (5 - Z.of_nat k).
Proof.
  intros Hwf [Hf1 Hf2] H0 H1 Hk. explicit_slots s Hwf.
  cbn [resultReg] in Hf1, Hf2.
  change (arr_get _ IF1) with (Some a0) in Hf1.
  change (arr_get _ IF2) with (Some a1) in Hf2.
  injection Hf1 as ->. injection Hf2 as ->.
  assert (Hm : (-1 =? r) = false) by lia.
  assert (Hrr : (r =? r) = true) by apply Z.eqb_refl.
  rewrite registerDest_slots. cbn [mbind option_bind].
  destruct k as [|[|[|[|[|[|k]]]]]]; try lia; cbn [repeat_m];
    repeat (rewrite clock_slots; cbn [mbind option_bind]);
    rewrite registerSrc_slots by done; rewrite ?Hm, ?Hrr;
    (eexists; split; [reflexivity|]); cbn [bubbles]; lia.
Qed.

Lemma read_after_write_stall_witness :
  wf init /\ front_empty init /\ 5 <> 0 /\ 5 <> -1 /\ (1 <= 2 <= 5)%nat /\
  exists s',
    (s1 ← registerDest 5 init; s2 ← repeat_m 2 clock s1; registerSrc 5 s2) = Some s' /\
    bubbles s' = bubbles init + (5 - Z.of_nat 2).
Proof.
  split; [reflexivity|]. split; [split; reflexivity|].
  split; [lia|]. split; [lia|]. split; [lia|].
  apply (read_after_write_stall init 5 2);
    [reflexivity | split; reflexivity | lia | lia | lia].
Defined.

Lemma flush_by_clock_front_empty s s' :
  wf s -> front_empty s -> flush_by_clock s = Some s' -> wf s' /\ front_empty s'.
Proof.
  intros Hwf [Hf1 _]. revert Hf1. explicit_slots s Hwf. unfold flush_by_clock.
  rewrite clock_slots. cbn [mbind option_bind]. intros Hf1 [= <-].
  split; [reflexivity|]. split; [reflexivity | exact Hf1].
Qed.

Lemma repeat_flush_by_clock_front_empty n s s' :
  wf s -> front_empty s -> repeat_m n flush_by_clock s = Some s' -> front_empty s'.
Proof.
  revert s. induction n as [|n IH]; intros s Hwf Hfe; cbn [repeat_m].
  - by intros [= <-].
  - destruct (flush_by_clock s) as [s1|] eqn:E; [|discriminate].
    cbn [mbind option_bind].
    destruct (flush_by_clock_front_empty _ _ Hwf Hfe E). by apply IH.
Qed.

Lemma flush_loop_beyond_stages s k : wf s -> flush_loop (8 + S k) 0 s = None.
Proof.
  intros Hwf. rewrite flush_loop_app.
  destruct (flush_loop 8 0 s) as [s1|] eqn:E1; [|reflexivity].
  cbn [mbind option_bind flush_loop]. change (0 + Z.of_nat 8) with PIPESTAGES.
  rewrite flush_at_stages_faults; [reflexivity|]. by eapply flush_loop_wf.
Qed.

(** The two fetch slots are empty when the tracker is constructed and
    after every operation that returns: only the decode slot is ever
    written with a register index, and the shifts refill from the empty
    first slot. *)
Theorem front_end_stays_empty (s : Stats) :
  wf s -> front_empty s ->
  (forall s', clock s = Some s' -> front_empty s') /\
  (forall s', bubble s = Some s' -> front_empty s') /\
  (forall r s', registerDest r s = Some s' -> front_empty s') /\
  (forall r s', registerSrc r s = Some s' -> front_empty s') /\
  (forall n s', flush n s = Some s' -> front_empty s').
Proof.
  intros Hwf Hfe. repeat split.
  1-6: revert Hfe; explicit_slots s Hwf;
       rewrite ?clock_slots, ?bubble_slots, ?registerDest_slots in H;
       injection H as <-; intros [Hf1 Hf2];
       first [ reflexivity | exact Hf1 | exact Hf2 ].
  - destruct (registerSrc_frame s r Hwf) as (s1 & E & _ & _ & _ & _ & (H1 & _ & _)).
    assert (s1 = s') as -> by congruence. rewrite H1. apply Hfe.
  - destruct (registerSrc_frame s r Hwf) as (s1 & E & _ & _ & _ & _ & (_ & H2 & _)).
    assert (s1 = s') as -> by congruence. rewrite H2. apply Hfe.
  - destruct (Z_le_gt_dec n 8) as [Hle|Hgt].
    + destruct (Z_le_gt_dec 0 n) as [Hn|Hn].
      * rewrite flush_agrees_upto_stages in H by (unfold PIPESTAGES; done || lia).
        by eapply repeat_flush_by_clock_front_empty.
      * unfold flush in H. replace (Z.to_nat n) with 0%nat in H by lia.
        injection H as <-. apply Hfe.
    + unfold flush in H.
      replace (Z.to_nat n) with (8 + S (Z.to_nat n - 9))%nat in H by lia.
      by rewrite flush_loop_beyond_stages in H.
  - destruct (Z_le_gt_dec n 8) as [Hle|Hgt].
    + destruct (Z_le_gt_dec 0 n) as [Hn|Hn].
      * rewrite flush_agrees_upto_stages in H by (unfold PIPESTAGES; done || lia).
        by eapply repeat_flush_by_clock_front_empty.
      * unfold flush in H. replace (Z.to_nat n) with 0%nat in H by lia.
        injection H as <-. apply Hfe.
    + unfold flush in H.
      replace (Z.to_nat n) with (8 + S (Z.to_nat n - 9))%nat in H by lia.
      by rewrite flush_loop_beyond_stages in H.
Qed.

Lemma front_end_stays_empty_witness :
  wf init /\ front_empty init /\
  (forall s', clock init = Some s' -> front_empty s') /\
  (forall s', bubble init = Some s' -> front_empty s') /\
  (forall r s', registerDest r init = Some s' -> front_empty s') /\
  (forall r s', registerSrc r init = Some s' -> front_empty s') /\
  (forall n s', flush n init = Some s' -> front_empty s').
Proof.
  split; [reflexivity|]. split; [split; reflexivity|].
  apply (front_end_stays_empty init); [reflexivity | split; reflexivity].
Defined.

End StatsFacts.

(** ** Facts about the driver *)

Module CPUFacts.
Import CPU StatsFacts.

(** *** The three switches of [decode] *)

Ltac by_case :=
  match goal with
  | H : _ = _ -> ?P ?k |- ?P ?k => apply H; reflexivity
  end.

Ltac by_default Hd :=
  let HIn := fresh "HIn" in
  apply Hd; intros HIn; cbn [In] in HIn;
  repeat (destruct HIn as [HIn|HIn]; [discriminate HIn|]); exact HIn.

Lemma opcode_switch {A : Type} (P : A -> Prop) (z : Z)
    (k00 k02 k03 k04 k05 k09 k0c k0f k1a k23 k2b d : A) :
  (z = 0x00 -> P k00) -> (z = 0x02 -> P k02) -> (z = 0x03 -> P k03) ->
  (z = 0x04 -> P k04) -> (z = 0x05 -> P k05) -> (z = 0x09 -> P k09) ->
  (z = 0x0c -> P k0c) -> (z = 0x0f -> P k0f) -> (z = 0x1a -> P k1a) ->
  (z = 0x23 -> P k23) -> (z = 0x2b -> P k2b) ->
  (~ In z [0x00; 0x02; 0x03; 0x04; 0x05; 0x09; 0x0c; 0x0f; 0x1a; 0x23; 0x2b] -> P d) ->
  P (match z with
     | 0x00 => k00 | 0x02 => k02 | 0x03 => k03 | 0x04 => k04
     | 0x05 => k05 | 0x09 => k09 | 0x0c => k0c | 0x0f => k0f
     | 0x1a => k1a | 0x23 => k23 | 0x2b => k2b | _ => d
     end).
Proof.
  intros H00 H02 H03 H04 H05 H09 H0c H0f H1a H23 H2b Hd.
  destruct z as [|p|p]; [by apply H00| |]; [|by_default Hd].
  do 6 (try destruct p as [p|p|]); first [ by_case | by_default Hd ].
Qed.

Lemma funct_switch {A : Type} (P : A -> Prop) (z : Z)
    (k00 k03 k08 k10 k12 k18 k1a k21 k23 k2a d : A) :
  (z = 0x00 -> P k00) -> (z = 0x03 -> P k03) -> (z = 0x08 -> P k08) ->
  (z = 0x10 -> P k10) -> (z = 0x12 -> P k12) -> (z = 0x18 -> P k18) ->
  (z = 0x1a -> P k1a) -> (z = 0x21 -> P k21) -> (z = 0x23 -> P k23) ->
  (z = 0x2a -> P k2a) ->
  (~ In z [0x00; 0x03; 0x08; 0x10; 0x12; 0x18; 0x1a; 0x21; 0x23; 0x2a] -> P d) ->
  P (match z with
     | 0x00 => k00 | 0x03 => k03 | 0x08 => k08 | 0x10 => k10
     | 0x12 => k12 | 0x18 => k18 | 0x1a => k1a | 0x21 => k21
     | 0x23 => k23 | 0x2a => k2a | _ => d
     end).
Proof.
  intros H00 H03 H08 H10 H12 H18 H1a H21 H23 H2a Hd.
  destruct z as [|p|p]; [by apply H00| |]; [|by_default Hd].
  do 6 (try destruct p as [p|p|]); first [ by_case | by_default Hd ].
Qed.

Lemma trap_switch {A : Type} (P : A -> Prop) (z : Z) (k0 k1 k5 ka d : A) :
  (z = 0x0 -> P k0) -> (z = 0x1 -> P k1) -> (z = 0x5 -> P k5) ->
  (z = 0xa -> P ka) -> (~ In z [0x0; 0x1; 0x5; 0xa] -> P d) ->
  P (match z with
     | 0x0 => k0 | 0x1 => k1 | 0x5 => k5 | 0xa => ka | _ => d
     end).
Proof.
  intros H0 H1 H5 Ha Hd.
  destruct z as [|p|p]; [by apply H0| |]; [|by_default Hd].
  do 4 (try destruct p as [p|p|]); first [ by_case | by_default Hd ].
Qed.

(** *** Register indices and the tracker calls *)

Lemma land_31_range x : 0 <= Z.land x 0x1f < 32.
Proof.
  change 0x1f with (Z.ones 5). rewrite Z.land_ones by lia.
  apply Z.mod_pos_bound. lia.
Qed.

Lemma rs_range i : 0 <= rs_of i < 32.
Proof. apply land_31_range. Qed.

Lemma rt_range i : 0 <= rt_of i < 32.
Proof. apply land_31_range. Qed.

Lemma rd_range i : 0 <= rd_of i < 32.
Proof. apply land_31_range. Qed.

Lemma reg_get (l : list Z) r :
  length l = Z.to_nat NREGS -> 0 <= r < 32 -> exists v, arr_get l r = Some v.
Proof.
  intros Hl Hr. unfold arr_get.
  assert (in_bounds l r = true) as ->.
  { unfold in_bounds. rewrite Hl. apply andb_true_intro.
    split; [apply Z.leb_le | apply Z.ltb_lt]; unfold NREGS; lia. }
  apply lookup_lt_is_Some_2. rewrite Hl. unfold NREGS. lia.
Qed.

Lemma reg_set (l : list Z) r v :
  length l = Z.to_nat NREGS -> 0 <= r < 32 ->
  exists l', arr_set l r v = Some l' /\ length l' = Z.to_nat NREGS /\
             l' = <[Z.to_nat r := v]> l.
Proof.
  intros Hl Hr. unfold arr_set.
  assert (in_bounds l r = true) as ->.
  { unfold in_bounds. rewrite Hl. apply andb_true_intro.
    split; [apply Z.leb_le | apply Z.ltb_lt]; unfold NREGS; lia. }
  eexists. split; [reflexivity|]. split; [by rewrite length_insert | reflexivity].
Qed.

Lemma registerDest_dest_only r s :
  Stats.wf s -> exists s', Stats.registerDest r s = Some s' /\ dest_only r s s'.
Proof.
  intros Hwf. destruct (wf_slots s Hwf) as (a0&a1&a2&a3&a4&a5&a6&a7&E).
  destruct s as [c f b m br t l]; simpl in E; subst l.
  rewrite registerDest_slots. eexists. split; [reflexivity|]. by repeat split.
Qed.

Lemma flush_2_flushed s :
  Stats.wf s -> exists s', Stats.flush 2 s = Some s' /\ flushed_2 s s'.
Proof.
  intros Hwf. destruct (wf_slots s Hwf) as (a0&a1&a2&a3&a4&a5&a6&a7&E).
  destruct s as [c f b m br t l]; simpl in E; subst l.
  rewrite flush_2_slots. eexists. split; [reflexivity|]. by repeat split.
Qed.

Lemma countBranch_wf s : Stats.wf s -> Stats.wf (Stats.countBranch s).
Proof. done. Qed.

Lemma countTaken_wf s : Stats.wf s -> Stats.wf (Stats.countTaken s).
Proof. done. Qed.

Lemma countMemOp_wf s : Stats.wf s -> Stats.wf (Stats.countMemOp s).
Proof. done. Qed.

Lemma stalls_only_wf s s' : stalls_only s s' -> Stats.wf s'.
Proof. by intros [? _]. Qed.

Lemma dest_only_wf r s s' : dest_only r s s' -> Stats.wf s'.
Proof. by intros [? _]. Qed.

Lemma flushed_2_wf s s' : flushed_2 s s' -> Stats.wf s'.
Proof. by intros [? _]. Qed.

Lemma accounted_refl s : Stats.wf s -> accounted s s.
Proof. unfold accounted. intuition lia. Qed.

Lemma accounted_trans s1 s2 s3 :
  accounted s1 s2 -> accounted s2 s3 -> accounted s1 s3.
Proof. unfold accounted. intuition lia. Qed.

Create HintDb tracker discriminated.
#[local] Hint Resolve countBranch_wf countTaken_wf countMemOp_wf
  stalls_only_wf dest_only_wf flushed_2_wf : tracker.

Section Driver.

Context {Mem Alu : Type}.
Variable loadWord : Mem -> Z -> option Z.
Variable storeWord : Z -> Z -> Mem -> option Mem.
Variable getSize : Mem -> Z.
Variable alu_op : ALU_OP -> Z -> Z -> Alu -> Z * Alu.
Variable getUpper : Alu -> Z.
Variable getLower : Alu -> Z.

Implicit Type c : CPU (Mem := Mem) (Alu := Alu).

#[local] Arguments opcode_of : simpl never.
#[local] Arguments rs_of : simpl never.
#[local] Arguments rt_of : simpl never.
#[local] Arguments rd_of : simpl never.
#[local] Arguments funct_of : simpl never.
#[local] Arguments addr_of : simpl never.

Lemma do_src r c :
  Stats.wf (stats c) ->
  exists st, stats_do (Stats.registerSrc r) c = Some (set_stats st c) /\
             stalls_only (stats c) st.
Proof.
  intros H. destruct (registerSrc_stalls_only r _ H) as (st & E & Hst).
  exists st. unfold stats_do. rewrite E. done.
Qed.

Lemma do_dest r c :
  Stats.wf (stats c) ->
  exists st, stats_do (Stats.registerDest r) c = Some (set_stats st c) /\
             dest_only r (stats c) st.
Proof.
  intros H. destruct (registerDest_dest_only r _ H) as (st & E & Hst).
  exists st. unfold stats_do. rewrite E. done.
Qed.

Lemma do_flush c :
  Stats.wf (stats c) ->
  exists st, stats_do (Stats.flush 2) c = Some (set_stats st c) /\
             flushed_2 (stats c) st.
Proof.
  intros H. destruct (flush_2_flushed _ H) as (st & E & Hst).
  exists st. unfold stats_do. rewrite E. done.
Qed.

(** *** Stepping through one case of [decode] *)

Ltac cpu_norm :=
  cbv [set_pc set_dMem set_alu set_regFile set_hi set_lo set_instr
       set_writeDest set_destReg set_opIsLoad set_opIsStore set_opIsMultDiv
       set_aluOp set_aluSrc1 set_aluSrc2 set_storeData set_aluOut
       set_writeData set_instructions set_stop set_stats set_cin set_cout
       set_cerr pc iMem dMem alu regFile hi lo instr writeDest destReg
       opIsLoad opIsStore opIsMultDiv aluOp aluSrc1 aluSrc2 storeData aluOut
       writeData instructions stop stats cin cout cerr reset_signals].

Ltac cpu_norm_all :=
  cbv [set_pc set_dMem set_alu set_regFile set_hi set_lo set_instr
       set_writeDest set_destReg set_opIsLoad set_opIsStore set_opIsMultDiv
       set_aluOp set_aluSrc1 set_aluSrc2 set_storeData set_aluOut
       set_writeData set_instructions set_stop set_stats set_cin set_cout
       set_cerr pc iMem dMem alu regFile hi lo instr writeDest destReg
       opIsLoad opIsStore opIsMultDiv aluOp aluSrc1 aluSrc2 storeData aluOut
       writeData instructions stop stats cin cout cerr reset_signals] in *.

Ltac reg_range :=
  lazymatch goal with
  | |- _ <= rs_of _ < _ => apply rs_range
  | |- _ <= rt_of _ < _ => apply rt_range
  | |- _ <= rd_of _ < _ => apply rd_range
  | |- _ => unfold REG_ZERO, REG_RA; lia
  end.

Ltac dstep :=
  first
  [ match goal with
    | |- context [if ?b then _ else _] => destruct b eqn:?
    end
  | match goal with
    | |- context [stats_do (Stats.registerSrc ?r) ?c] =>
        let st := fresh "st" in let H := fresh "Hst" in
        destruct (do_src r c) as (st & -> & H);
        [ cpu_norm; eauto with tracker | cpu_norm_all ]
    end
  | match goal with
    | |- context [stats_do (Stats.registerDest ?r) ?c] =>
        let st := fresh "st" in let H := fresh "Hst" in
        destruct (do_dest r c) as (st & -> & H);
        [ cpu_norm; eauto with tracker | cpu_norm_all ]
    end
  | match goal with
    | |- context [stats_do (Stats.flush 2) ?c] =>
        let st := fresh "st" in let H := fresh "Hst" in
        destruct (do_flush c) as (st & -> & H);
        [ cpu_norm; eauto with tracker | cpu_norm_all ]
    end
  | match goal with
    | H : arr_get ?l ?r = Some _ |- context [arr_get ?l ?r] => rewrite H
    end
  | match goal with
    | |- context [arr_get ?l ?r] =>
        let v := fresh "v" in
        destruct (reg_get l r) as (v & ->); [ assumption | reg_range | ]
    end
  | match goal with
    | |- context [arr_set ?l ?r ?v] =>
        let l' := fresh "rf" in let H := fresh "Hrf" in let E := fresh "Erf" in
        destruct (reg_set l r v) as (l' & -> & H & E); [ assumption | reg_range | ]
    end
  | match goal with
    | |- context [match ?x with [] => _ | _ :: _ => _ end] => destruct x
    end ];
  cbn [mbind option_bind]; cpu_norm.

Ltac by_cases lem :=
  lazymatch goal with
  | |- ex (fun c' => ?M = Some c' /\ @?Q c') =>
      apply (lem _ (fun m => exists c', m = Some c' /\ Q c'))
  end.

Ltac relations :=
  unfold accounted, stalls_only, dest_only, flushed_2 in *;
  cbn [Stats.cycles Stats.flushes Stats.bubbles Stats.memops Stats.branches
       Stats.taken Stats.resultReg Stats.countBranch Stats.countTaken
       Stats.countMemOp] in *.

(** Deciding the instruction classes in one case of the switches. *)
Ltac not_listed H :=
  symmetry; apply Z.eqb_neq; intros ?E; apply H; rewrite ?E;
  cbn [In]; repeat (first [ left; reflexivity | right ]).

Ltac is_poslit p :=
  lazymatch p with
  | xH => idtac
  | xO ?q => is_poslit q
  | xI ?q => is_poslit q
  end.

Ltac is_Zlit z :=
  lazymatch z with
  | Z0 => idtac
  | Zpos ?p => is_poslit p
  | Zneg ?p => is_poslit p
  end.

Ltac classify :=
  unfold is_transfer, is_branch, is_memop, reads_input, halts, sets_destReg;
  repeat match goal with
  | H : ?z = ?k |- context [?z =? _] => is_Zlit k; rewrite !H
  | H : ~ In ?z _ |- context [?z =? ?k] =>
      replace (z =? k) with false by not_listed H
  end;
  repeat match goal with
  | |- context [Z.eqb ?a ?b] =>
      is_Zlit a; is_Zlit b;
      let v := eval vm_compute in (Z.eqb a b) in
      change (Z.eqb a b) with v
  end;
  cbn [andb orb negb].

Ltac finish_post :=
  eexists; (split; [reflexivity|]);
  unfold decode_post, wf, destReg_ok; cpu_norm; classify; relations;
  destruct_and?;
  repeat split;
  first [ assumption | reflexivity | lia
        | (symmetry; apply orb_false_r) | (symmetry; apply orb_true_r)
        | match goal with
          | |- context [rd_of ?i] => pose proof (rd_range i); unfold NREGS; lia
          | |- context [rt_of ?i] => pose proof (rt_range i); unfold NREGS; lia
          | |- _ => unfold NREGS, REG_RA; lia
          end
        | (intros; first [ discriminate | reflexivity | (left; reflexivity)
                         | (right; reflexivity) ]) ].

(** [decode] returns on every instruction word, and its effect on the
    driver depends on the instruction class only. *)
Lemma decode_effect c :
  wf c -> exists c', decode c = Some c' /\ decode_post c c'.
Proof.
  intros [Hs Hr]. unfold decode. cbv zeta. destruct c. cpu_norm_all.
  by_cases @opcode_switch; intros Hop.
  1: by_cases @funct_switch; intros Hf.
  19: by_cases @trap_switch; intros Ht.
  all: repeat dstep.
  all: finish_post.
Qed.

(** *** Conditional branches *)

(** The condition [beq] or [bne] tests on the operands [a] and [b]. *)
Lemma decode_cond_branch c :
  wf c -> is_branch (instr c) = true ->
  exists c' a b,
    decode c = Some c' /\ decode_post c c' /\
    arr_get (regFile c) (rs_of (instr c)) = Some a /\
    arr_get (regFile c) (rt_of (instr c)) = Some b /\
    pc c' = (if (if opcode_of (instr c) =? 0x04 then a =? b else negb (a =? b))
             then branch_target (pc c) (simm_of (instr c)) else pc c).
Proof.
  intros Hwf Hb. destruct (decode_effect c Hwf) as (c' & E & Hpost).
  exists c'. destruct Hwf as [Hs Hr].
  destruct (reg_get _ (rs_of (instr c)) Hr (rs_range _)) as (a & Ha).
  destruct (reg_get _ (rt_of (instr c)) Hr (rt_range _)) as (b & Hb').
  exists a, b. repeat (split; [done|]). clear Hpost.
  revert E. unfold decode. cbv zeta. unfold is_branch in Hb.
  destruct (Z.eqb_spec (opcode_of (instr c)) 0x04) as [Hop|_].
  - rewrite Hop. cbv beta iota. destruct c. cpu_norm_all.
    repeat dstep; intros [= <-]; cpu_norm; simplify_eq; congruence.
  - destruct (Z.eqb_spec (opcode_of (instr c)) 0x05) as [Hop|_]; [|discriminate].
    rewrite Hop. cbv beta iota. destruct c. cpu_norm_all.
    repeat dstep; intros [= <-]; cpu_norm; simplify_eq;
      cbn [negb] in *; congruence.
Qed.

Lemma not_taken_is_branch c a b :
  (opcode_of (instr c) = 0x04 /\ a <> b) \/ (opcode_of (instr c) = 0x05 /\ a = b) ->
  is_branch (instr c) = true /\
  (if opcode_of (instr c) =? 0x04 then a =? b else negb (a =? b)) = false.
Proof.
  unfold is_branch. intros [[-> Hab]|[-> ->]].
  - split; [reflexivity|]. change (0x04 =? 0x04) with true. cbv iota. lia.
  - split; [reflexivity|]. change (0x05 =? 0x04) with false. cbv iota.
    by rewrite Z.eqb_refl.
Qed.

(** C1 at the failing input: a conditional branch whose condition does not
    hold leaves [pc] alone and still runs [stats.flush(2)], because the
    [if] in the [beq] and [bne] cases governs the assignment to [pc] only.
    The flush counter goes up by 2 and so does the cycle count, beyond
    whatever the operand reads stalled. *)
Theorem decode_branch_not_taken_still_flushes c (a b : Z) :
  wf c ->
  arr_get (regFile c) (rs_of (instr c)) = Some a ->
  arr_get (regFile c) (rt_of (instr c)) = Some b ->
  (opcode_of (instr c) = 0x04 /\ a <> b) \/ (opcode_of (instr c) = 0x05 /\ a = b) ->
  exists c',
    decode c = Some c' /\ pc c' = pc c /\
    Stats.flushes (stats c') = Stats.flushes (stats c) + 2 /\
    Stats.cycles (stats c') =
      Stats.cycles (stats c) +
      (Stats.bubbles (stats c') - Stats.bubbles (stats c)) + 2.
Proof.
  intros Hwf Ha Hb Hnt. destruct (not_taken_is_branch c a b Hnt) as [Hbr Hcond].
  destruct (decode_cond_branch c Hwf Hbr) as (c' & a' & b' & E & Hpost & Ha' & Hb' & Hpc).
  assert (a' = a) as -> by congruence. assert (b' = b) as -> by congruence.
  exists c'. split; [done|]. rewrite Hcond in Hpc. split; [done|].
  destruct Hpost as (_ & Hacc & Hfl & _). unfold is_transfer in Hfl.
  rewrite Hbr, !orb_true_r in Hfl. unfold accounted in Hacc. lia.
Qed.

(** C7 at the failing input: for the same not-taken branch [countTaken]
    runs all the same, so the taken-branch counter goes up by 1 together
    with the branch counter. *)
Theorem decode_branch_not_taken_still_counts_taken c (a b : Z) :
  wf c ->
  arr_get (regFile c) (rs_of (instr c)) = Some a ->
  arr_get (regFile c) (rt_of (instr c)) = Some b ->
  (opcode_of (instr c) = 0x04 /\ a <> b) \/ (opcode_of (instr c) = 0x05 /\ a = b) ->
  exists c',
    decode c = Some c' /\ pc c' = pc c /\
    Stats.taken (stats c') = Stats.taken (stats c) + 1 /\
    Stats.branches (stats c') = Stats.branches (stats c) + 1.
Proof.
  intros Hwf Ha Hb Hnt. destruct (not_taken_is_branch c a b Hnt) as [Hbr Hcond].
  destruct (decode_cond_branch c Hwf Hbr) as (c' & a' & b' & E & Hpost & Ha' & Hb' & Hpc).
  assert (a' = a) as -> by congruence. assert (b' = b) as -> by congruence.
  exists c'. split; [done|]. rewrite Hcond in Hpc. split; [done|].
  destruct Hpost as (_ & _ & _ & _ & Hbrc & Htk & _).
  rewrite Hbr in Hbrc, Htk. lia.
Qed.

(** *** The stages after [decode] *)

Abbreviation step := (step loadWord storeWord alu_op getUpper getLower).
Abbreviation run := (run loadWord storeWord alu_op getUpper getLower).
Abbreviation execute := (execute alu_op).
Abbreviation mem := (mem loadWord storeWord).
Abbreviation writeback := (writeback getUpper getLower).
Abbreviation fetch := (fetch loadWord).

Lemma arr_get_insert_ne (l : list Z) (i j : nat) (v : Z) :
  i <> j -> arr_get (<[i := v]> l) (Z.of_nat j) = arr_get l (Z.of_nat j).
Proof.
  intros Hne. unfold arr_get, in_bounds. rewrite length_insert, Nat2Z.id.
  by rewrite list_lookup_insert_ne.
Qed.

Lemma arr_set_insert (l l' : list Z) (i v : Z) :
  arr_set l i v = Some l' ->
  0 <= i < Z.of_nat (length l) /\ l' = <[Z.to_nat i := v]> l.
Proof.
  unfold arr_set, in_bounds.
  destruct (Z.leb_spec 0 i), (Z.ltb_spec i (Z.of_nat (length l)));
    cbn [andb]; try discriminate.
  by intros [= <-].
Qed.

(** [execute], [mem] and [writeback] touch neither the tracker nor the
    control state; [writeback] stores at [destReg] only, and only when
    that index is positive. *)
Lemma back_end_effect c c' :
  (c3 ← mem (execute c); writeback c3) = Some c' ->
  stats c' = stats c /\ stop c' = stop c /\ pc c' = pc c /\
  instructions c' = instructions c /\ iMem c' = iMem c /\
  instr c' = instr c /\ destReg c' = destReg c /\
  cin c' = cin c /\ cout c' = cout c /\ cerr c' = cerr c /\
  alu c' = snd (alu_op (aluOp c) (aluSrc1 c) (aluSrc2 c) (alu c)) /\
  aluOut c' = fst (alu_op (aluOp c) (aluSrc1 c) (aluSrc2 c) (alu c)) /\
  (opIsLoad c = false -> writeData c' = aluOut c') /\
  (opIsStore c = false -> dMem c' = dMem c) /\
  (if opIsMultDiv c
   then hi c' = getUpper (alu c') /\ lo c' = getLower (alu c')
   else hi c' = hi c /\ lo c' = lo c) /\
  (if writeDest c && (0 <? destReg c)
   then destReg c < Z.of_nat (length (regFile c)) /\
        regFile c' = <[Z.to_nat (destReg c) := writeData c']> (regFile c)
   else regFile c' = regFile c).
Proof.
  unfold CPU.execute, CPU.mem, CPU.writeback. destruct c. cpu_norm.
  destruct (alu_op _ _ _ _) as [r a]. cpu_norm.
  destruct opIsLoad0; [destruct (loadWord _ _) as [w|]; [|discriminate]|];
    cbn [mbind option_bind]; cpu_norm;
    (destruct opIsStore0; [destruct (storeWord _ _ _) as [m|]; [|discriminate]|]);
    cbn [mbind option_bind]; cpu_norm;
    (destruct writeDest0, (0 <? destReg0) eqn:Hd; cbn [andb];
     [destruct (arr_set _ _ _) as [rf|] eqn:Hrf; [|discriminate];
      apply arr_set_insert in Hrf; destruct Hrf as [? ->] | | |]);
    cbn [mbind option_bind]; cpu_norm;
    destruct opIsMultDiv0; intros [= <-]; cpu_norm; cbn [fst snd];
    repeat split; try done; lia.
Qed.

Lemma step_unfold c :
  step c =
  (w ← loadWord (iMem c) (pc c);
   c2 ← decode (set_pc (wrap32 (pc c + 4))
                  (set_instr w (set_instructions (instructions c + 1) c)));
   c3 ← mem (execute c2);
   writeback c3).
Proof.
  unfold CPU.step, CPU.fetch. cpu_norm.
  destruct (loadWord _ _); reflexivity.
Qed.

(** The register file keeps its size through [writeback]. *)
Lemma back_end_regFile_length c c' :
  (c3 ← mem (execute c); writeback c3) = Some c' ->
  length (regFile c') = length (regFile c).
Proof.
  intros H. apply back_end_effect in H.
  destruct H as (_&_&_&_&_&_&_&_&_&_&_&_&_&_&_&Hrf).
  destruct (writeDest c && (0 <? destReg c)).
  - destruct Hrf as [_ ->]. apply length_insert.
  - by rewrite Hrf.
Qed.

(** Register 0 is out of [writeback]'s reach. *)
Lemma back_end_keeps_zero c c' :
  (c3 ← mem (execute c); writeback c3) = Some c' ->
  arr_get (regFile c') REG_ZERO = arr_get (regFile c) REG_ZERO.
Proof.
  intros H. apply back_end_effect in H.
  destruct H as (_&_&_&_&_&_&_&_&_&_&_&_&_&_&_&Hrf).
  destruct (writeDest c && (0 <? destReg c)) eqn:Hw.
  - destruct Hrf as [_ ->]. apply andb_true_iff in Hw as [_ Hpos].
    apply (arr_get_insert_ne _ _ 0). lia.
  - by rewrite Hrf.
Qed.

(** *** One iteration of the loop *)

(** The driver as [decode] sees it in the iteration that starts in [c]
    and fetches [w]. *)
Abbreviation fetched_from c w :=
  (set_pc (wrap32 (pc c + 4)) (set_instr w (set_instructions (instructions c + 1) c))).

Lemma step_inv c c' :
  wf c -> step c = Some c' ->
  exists w c2,
    loadWord (iMem c) (pc c) = Some w /\
    decode (fetched_from c w) = Some c2 /\
    decode_post (fetched_from c w) c2 /\
    (c3 ← mem (execute c2); writeback c3) = Some c'.
Proof.
  intros Hwf. rewrite step_unfold.
  destruct (loadWord _ _) as [w|]; [|discriminate]. cbn [mbind option_bind].
  destruct (decode_effect (fetched_from c w)) as (c2 & E & Hpost); [exact Hwf|].
  rewrite E. cbn [mbind option_bind]. intros H. by exists w, c2.
Qed.

(** An iteration keeps the arrays at their sizes and adds no cycle that
    is not a bubble or a flush. *)
Lemma step_accounted c c' :
  wf c -> step c = Some c' -> wf c' /\ accounted (stats c) (stats c').
Proof.
  intros Hwf H. destruct (step_inv c c' Hwf H) as (w & c2 & _ & _ & Hpost & Hbe).
  destruct Hpost as ([Hs2 Hr2] & Hacc & _).
  pose proof (back_end_effect _ _ Hbe) as (Hst & _).
  pose proof (back_end_regFile_length _ _ Hbe) as Hlen.
  split; [split|]; [by rewrite Hst | by rewrite Hlen | by rewrite Hst].
Qed.

Lemma run_accounted fuel c c' :
  wf c -> run fuel c = Halted c' -> wf c' /\ accounted (stats c) (stats c').
Proof.
  revert c. induction fuel as [|fuel IH]; intros c Hwf; cbn [CPU.run].
  - destruct (stop c); [|discriminate]. intros [= <-].
    split; [done|]. apply accounted_refl, Hwf.
  - destruct (stop c).
    { intros [= <-]. split; [done|]. apply accounted_refl, Hwf. }
    destruct (step c) as [c1|] eqn:E; [|discriminate]. intros H.
    destruct (step_accounted c c1 Hwf E) as [Hwf1 Hacc1].
    destruct (IH c1 Hwf1 H) as [Hwf' Hacc']. split; [done|].
    by eapply accounted_trans.
Qed.

(** The constructor always returns, with both arrays at their sizes, a
    fresh tracker, register 0 at zero and the loop ready to run. *)
Lemma construct_spec (u : CPU) pc0 im dm :
  exists c0, construct getSize u pc0 im dm = Some c0 /\
    wf c0 /\ stats c0 = Stats.init /\ pc c0 = pc0 /\ iMem c0 = im /\ dMem c0 = dm /\
    instructions c0 = 0 /\ stop c0 = false /\ hi c0 = 0 /\ lo c0 = 0 /\
    regFile c0 = <[29%nat := wrap32 (0x10000000 + getSize dm)]>
                   (<[28%nat := 0x10008000]> (replicate 32 0)).
Proof.
  eexists. split; [reflexivity|]. cpu_norm. repeat split.
Qed.

(** C2 at the failing input: [run] never calls [stats.clock()], so a
    run that halts has the startup cost plus its bubbles and flushes on
    the cycle counter and nothing per instruction.  A run without hazards
    and control transfers therefore ends with 7 cycles whatever the number
    of instructions, not with that number plus 7. *)
Theorem run_cycles_count_no_instructions (u : CPU) pc0 im dm c0 fuel c' :
  construct getSize u pc0 im dm = Some c0 ->
  run fuel c0 = Halted c' ->
  Stats.cycles (stats c') =
    (Stats.PIPESTAGES - 1) + Stats.bubbles (stats c') + Stats.flushes (stats c').
Proof.
  intros Hc Hrun.
  destruct (construct_spec u pc0 im dm) as (c0' & E & Hwf & Hst & _).
  assert (c0' = c0) as -> by congruence.
  destruct (run_accounted fuel c0 c' Hwf Hrun) as [_ Hacc].
  unfold accounted in Hacc. rewrite Hst in Hacc.
  cbn [Stats.cycles Stats.bubbles Stats.flushes Stats.init] in Hacc. lia.
Qed.

(** *** Instructions without a case *)

Ltac by_cases_eq lem :=
  lazymatch goal with
  | |- ?M = ?R => apply (lem _ (fun m => m = R))
  end.

Ltac listed H Hz :=
  exfalso; apply H; rewrite Hz; cbn [In];
  repeat (first [ left; reflexivity | right ]).

Lemma decode_unknown_opcode c :
  ~ In (opcode_of (instr c))
       [0x00; 0x02; 0x03; 0x04; 0x05; 0x09; 0x0c; 0x0f; 0x1a; 0x23; 0x2b] ->
  decode c =
  Some (set_cerr (cerr c ++ [UnimplementedInstruction (wrap32 (pc c - 4))])
          (reset_signals c)).
Proof.
  intros H. unfold decode. cbv zeta.
  by_cases_eq @opcode_switch; intros Hop; try (listed H Hop). reflexivity.
Qed.

Lemma decode_unknown_funct c :
  opcode_of (instr c) = 0x00 ->
  ~ In (funct_of (instr c))
       [0x00; 0x03; 0x08; 0x10; 0x12; 0x18; 0x1a; 0x21; 0x23; 0x2a] ->
  decode c =
  Some (set_cerr (cerr c ++ [UnimplementedInstruction (wrap32 (pc c - 4))])
          (reset_signals c)).
Proof.
  intros Hop H. unfold decode. cbv zeta. rewrite Hop. cbv beta iota.
  by_cases_eq @funct_switch; intros Hf; try (listed H Hf). reflexivity.
Qed.

Lemma decode_unknown_trap c :
  opcode_of (instr c) = 0x1a ->
  ~ In (Z.land (addr_of (instr c)) 0xf) [0x0; 0x1; 0x5; 0xa] ->
  decode c =
  Some (set_stop true
          (set_cerr (cerr c ++ [UnimplementedTrap (wrap32 (pc c - 4))])
             (reset_signals c))).
Proof.
  intros Hop H. unfold decode. cbv zeta. rewrite Hop. cbv beta iota.
  by_cases_eq @trap_switch; intros Ht; try (listed H Ht). reflexivity.
Qed.

(** With every control signal at its default the stages after [decode]
    change no architectural state. *)
Lemma back_end_idle c :
  writeDest c = false -> opIsLoad c = false -> opIsStore c = false ->
  opIsMultDiv c = false ->
  exists c', (c3 ← mem (execute c); writeback c3) = Some c' /\
    regFile c' = regFile c /\ hi c' = hi c /\ lo c' = lo c /\
    dMem c' = dMem c /\ stats c' = stats c /\ stop c' = stop c /\
    pc c' = pc c /\ cin c' = cin c /\ cout c' = cout c /\ cerr c' = cerr c /\
    instructions c' = instructions c.
Proof.
  unfold CPU.execute, CPU.mem, CPU.writeback. destruct c. cpu_norm.
  intros -> -> -> ->. destruct (alu_op _ _ _ _) as [r a]. cpu_norm.
  cbn [mbind option_bind andb]. cpu_norm.
  eexists. split; [reflexivity|]. cpu_norm. by repeat split.
Qed.

(** C5, amended: an instruction with no case in [decode] is reported on
    [cerr] and the run goes on, whether it is the funct field under opcode
    0 or the opcode itself that has no case: [stop] keeps its value and no
    register, memory word or tracker counter changes.  Only a trap request
    without a case sets [stop]. *)
Theorem unsupported_instruction_policy c (w : Z) :
  loadWord (iMem c) (pc c) = Some w ->
  ((opcode_of w = 0x00 /\
    ~ In (funct_of w) [0x00; 0x03; 0x08; 0x10; 0x12; 0x18; 0x1a; 0x21; 0x23; 0x2a]) \/
   ~ In (opcode_of w)
        [0x00; 0x02; 0x03; 0x04; 0x05; 0x09; 0x0c; 0x0f; 0x1a; 0x23; 0x2b] ->
   exists c', step c = Some c' /\ stop c' = stop c /\
     cerr c' = cerr c ++ [UnimplementedInstruction (wrap32 (wrap32 (pc c + 4) - 4))] /\
     regFile c' = regFile c /\ hi c' = hi c /\ lo c' = lo c /\
     dMem c' = dMem c /\ stats c' = stats c /\
     cin c' = cin c /\ cout c' = cout c /\ pc c' = wrap32 (pc c + 4)) /\
  (opcode_of w = 0x1a /\ ~ In (Z.land (addr_of w) 0xf) [0x0; 0x1; 0x5; 0xa] ->
   exists c', step c = Some c' /\ stop c' = true /\
     cerr c' = cerr c ++ [UnimplementedTrap (wrap32 (wrap32 (pc c + 4) - 4))] /\
     regFile c' = regFile c /\ hi c' = hi c /\ lo c' = lo c /\
     dMem c' = dMem c /\ stats c' = stats c).
Proof.
  clear getSize. intros Hw. split.
  - intros H. rewrite step_unfold, Hw. cbn [mbind option_bind].
    assert (decode (fetched_from c w) =
            Some (set_cerr (cerr (fetched_from c w) ++
                    [UnimplementedInstruction (wrap32 (pc (fetched_from c w) - 4))])
                    (reset_signals (fetched_from c w)))) as ->.
    { destruct H as [[Hop Hf]|Hop];
        [by apply decode_unknown_funct | by apply decode_unknown_opcode]. }
    cbn [mbind option_bind].
    match goal with |- context [mem (execute ?c2)] =>
      destruct (back_end_idle c2) as (c' & -> & Hc'); [done..|] end.
    exists c'. split; [done|]. revert Hc'. destruct c. cpu_norm. intuition congruence.
  - intros [Hop Ht]. rewrite step_unfold, Hw. cbn [mbind option_bind].
    rewrite decode_unknown_trap by done. cbn [mbind option_bind].
    match goal with |- context [mem (execute ?c2)] =>
      destruct (back_end_idle c2) as (c' & -> & Hc'); [done..|] end.
    exists c'. split; [done|]. revert Hc'. destruct c. cpu_norm. intuition congruence.
Qed.

(** *** The trap that reads a register *)

Lemma decode_trap_read c (v : Z) (rest : list Z) :
  wf c -> opcode_of (instr c) = 0x1a -> Z.land (addr_of (instr c)) 0xf = 0x5 ->
  cin c = v :: rest ->
  decode c =
  Some (set_cin rest
          (set_regFile (<[Z.to_nat (rt_of (instr c)) := wrap32 v]> (regFile c))
             (set_cout (cout c ++ [OutPrompt]) (reset_signals c)))).
Proof.
  intros [_ Hr] Hop Ht Hin. unfold decode. cbv zeta. rewrite Hop. cbv beta iota.
  rewrite Ht. cbv beta iota. destruct c. cpu_norm_all. subst.
  destruct (reg_set regFile0 (rt_of instr0) (wrap32 v) Hr (rt_range _)) as (rf & -> & _ & ->).
  reflexivity.
Qed.

(** C8 at the failing input: the trap with request code 5 reads an
    integer straight into [regFile[rt]]; with [rt = 0] the value lands in
    register 0, which [writeback] alone protects, and it is still there
    when the iteration ends. *)
Theorem step_trap_read_overwrites_zero c (w v : Z) (rest : list Z) :
  wf c ->
  loadWord (iMem c) (pc c) = Some w ->
  opcode_of w = 0x1a -> Z.land (addr_of w) 0xf = 0x5 -> rt_of w = 0 ->
  cin c = v :: rest ->
  exists c', step c = Some c' /\
             arr_get (regFile c') REG_ZERO = Some (wrap32 v) /\
             cin c' = rest.
Proof.
  intros Hwf Hw Hop Ht Hrt Hin. rewrite step_unfold, Hw. cbn [mbind option_bind].
  rewrite (decode_trap_read (fetched_from c w) v rest); [|done..].
  cbn [mbind option_bind].
  match goal with |- context [mem (execute ?c2)] =>
    destruct (back_end_idle c2) as (c' & -> & Hc'); [done..|] end.
  exists c'. split; [done|]. destruct Hwf as [_ Hr].
  revert Hc' Hr. destruct c. cpu_norm. rewrite Hrt.
  intros (-> & _ & _ & _ & _ & _ & _ & -> & _) Hr. split; [|done].
  unfold arr_get, in_bounds, REG_ZERO. rewrite length_insert, Hr.
  cbn [Z.to_nat]. change ((0 <=? 0) && (0 <? Z.of_nat (Z.to_nat NREGS))) with true.
  cbv iota. apply list_lookup_insert_eq. rewrite Hr. unfold NREGS. lia.
Qed.

(** *** Load upper immediate *)

Lemma decode_lui c :
  wf c -> opcode_of (instr c) = 0x0f ->
  exists st,
    dest_only (rt_of (instr c)) (stats c) st /\
    decode c =
    Some (set_aluSrc2 16
            (set_aluSrc1 (wrap32 (simm_of (instr c)))
               (set_aluOp SHF_L
                  (set_stats st (set_writeDest true (reset_signals c)))))).
Proof.
  intros [Hs Hr] Hop. unfold decode. cbv zeta. rewrite Hop. cbv beta iota.
  destruct c. cpu_norm_all. dstep. eexists. split; [eassumption|]. reflexivity.
Qed.

(** C10: for [lui], [decode] records [rt] in the tracker's decode slot
    and sets [writeDest], but leaves [destReg] as the last instruction
    that assigned it left it; [writeback] then stores the shifted
    immediate at that stale index when it is positive, and nowhere when it
    is 0.  Register [rt] itself changes only if it happens to be that
    index. *)
Theorem step_lui_commits_to_stale_destReg c (w : Z) :
  wf c -> destReg_ok c ->
  loadWord (iMem c) (pc c) = Some w ->
  opcode_of w = 0x0f ->
  exists c', step c = Some c' /\
    destReg c' = destReg c /\
    arr_get (Stats.resultReg (stats c')) Stats.ID = Some (rt_of w) /\
    writeData c' = fst (alu_op SHF_L (wrap32 (simm_of w)) 16 (alu c)) /\
    regFile c' = (if 0 <? destReg c
                  then <[Z.to_nat (destReg c) := writeData c']> (regFile c)
                  else regFile c) /\
    (rt_of w <> destReg c ->
     arr_get (regFile c') (rt_of w) = arr_get (regFile c) (rt_of w)).
Proof.
  intros Hwf Hd Hw Hop. rewrite step_unfold, Hw. cbn [mbind option_bind].
  destruct (decode_lui (fetched_from c w)) as (st & Hst & ->); [done..|].
  cbn [mbind option_bind]. destruct Hwf as [Hs Hr]. unfold destReg_ok in Hd.
  unfold CPU.execute, CPU.mem, CPU.writeback. destruct c. cpu_norm_all.
  destruct (alu_op _ _ _ _) as [r a] eqn:Ealu. cpu_norm.
  cbn [mbind option_bind andb fst].
  destruct Hst as (_ & Hid & _).
  destruct (Z.ltb_spec 0 destReg0) as [Hpos|Hnp].
  - destruct (reg_set regFile0 destReg0 r Hr) as (rf & -> & _ & ->);
      [unfold NREGS in Hd; lia|].
    cbn [mbind option_bind]. cpu_norm. eexists. split; [reflexivity|]. cpu_norm.
    repeat split; try done. intros Hne.
    rewrite <- (Z2Nat.id (rt_of w)) by apply rt_range.
    apply arr_get_insert_ne. pose proof (rt_range w). lia.
  - cbn [mbind option_bind]. cpu_norm. eexists. split; [reflexivity|]. cpu_norm.
    by repeat split.
Qed.

(** *** The final report *)

(** C6, amended: the percentage of taken branches is the quotient of
    100 times the taken-branch count by the branch count, computed with no
    test on the divisor: when no branch was executed the division is
    performed with the divisor 0. *)
Theorem percent_taken_unguarded c :
  rep_taken (printFinalStats c) =
    mkQuot (100 * Stats.taken (stats c)) (Stats.branches (stats c)) /\
  (Stats.branches (stats c) = 0 -> divisor (rep_taken (printFinalStats c)) = 0).
Proof. split; [reflexivity|]. intros H. exact H. Qed.

(** *** More about [decode] *)

(** [decode] handles every instruction word: no register index it forms
    leaves the register file, no slot index leaves the tracker's array,
    and both arrays keep their sizes. *)
Theorem decode_never_faults c :
  wf c -> exists c', decode c = Some c' /\ wf c'.
Proof.
  intros Hwf. destruct (decode_effect c Hwf) as (c' & E & Hwf' & _). by exists c'.
Qed.

(** What [decode] adds to the event counters depends on the instruction
    class alone: one memory operation for [lw] and [sw], one branch and
    one taken branch for [beq] and [bne], two flushes for every case that
    calls [flush], nothing otherwise. *)
Theorem decode_counters_by_class c :
  wf c ->
  exists c', decode c = Some c' /\
    Stats.memops (stats c') =
      Stats.memops (stats c) + (if is_memop (instr c) then 1 else 0) /\
    Stats.branches (stats c') =
      Stats.branches (stats c) + (if is_branch (instr c) then 1 else 0) /\
    Stats.taken (stats c') =
      Stats.taken (stats c) + (if is_branch (instr c) then 1 else 0) /\
    Stats.flushes (stats c') =
      Stats.flushes (stats c) + (if is_transfer (instr c) then 2 else 0).
Proof.
  intros Hwf.
  destruct (decode_effect c Hwf) as (c' & E & _ & _ & Hf & Hm & Hb & Ht & _).
  by exists c'.
Qed.

(** [decode] never clears [stop], and sets it for exactly the trap
    requests other than 0, 1 and 5. *)
Theorem decode_stop c :
  wf c -> exists c', decode c = Some c' /\ stop c' = stop c || halts (instr c).
Proof.
  intros Hwf.
  destruct (decode_effect c Hwf) as (c' & E & _ & _ & _ & _ & _ & _ & Hs & _).
  by exists c'.
Qed.

Lemma decode_trap_read_empty c :
  opcode_of (instr c) = 0x1a -> Z.land (addr_of (instr c)) 0xf = 0x5 ->
  cin c = [] ->
  decode c = Some (set_cout (cout c ++ [OutPrompt]) (reset_signals c)).
Proof.
  intros Hop Ht Hin. unfold decode. cbv zeta. rewrite Hop. cbv beta iota.
  rewrite Ht. cbv beta iota. destruct c. cpu_norm_all. subst. reflexivity.
Qed.

(** The multiply/divide signal is raised for [mult] and [div] only. *)
Lemma decode_multdiv c c' :
  wf c -> decode c = Some c' -> opIsMultDiv c' = is_multdiv (instr c).
Proof.
  intros [Hs Hr]. revert c'.
  assert (exists c1, decode c = Some c1 /\ opIsMultDiv c1 = is_multdiv (instr c))
    as (c1 & E & H).
  { unfold decode. cbv zeta. destruct c. cpu_norm_all.
    by_cases @opcode_switch; intros Hop.
    1: by_cases @funct_switch; intros Hf.
    19: by_cases @trap_switch; intros Ht.
    all: repeat dstep.
    all: eexists; (split; [reflexivity|]); cpu_norm; unfold is_multdiv; classify;
         reflexivity. }
  intros c' E'. by assert (c1 = c') as <- by congruence.
Qed.

(** *** More about one iteration *)

Lemma step_fetched c c' w :
  wf c -> step c = Some c' -> loadWord (iMem c) (pc c) = Some w ->
  exists c2,
    decode (fetched_from c w) = Some c2 /\
    decode_post (fetched_from c w) c2 /\
    (c3 ← mem (execute c2); writeback c3) = Some c'.
Proof.
  intros Hwf H Hw. destruct (step_inv c c' Hwf H) as (w' & c2 & Hw' & E & Hp & Hb).
  assert (w' = w) as -> by congruence. by exists c2.
Qed.

(** Register 0 keeps its value through an iteration unless the
    instruction is the trap read aimed at register 0. *)
Theorem step_keeps_zero c c' (w : Z) :
  wf c -> step c = Some c' -> loadWord (iMem c) (pc c) = Some w ->
  reads_input w = false \/ rt_of w <> 0 ->
  arr_get (regFile c') REG_ZERO = arr_get (regFile c) REG_ZERO.
Proof.
  intros Hwf H Hw Hcase.
  destruct (step_fetched c c' w Hwf H Hw) as (c2 & E & Hp & Hb).
  rewrite (back_end_keeps_zero _ _ Hb).
  destruct (reads_input w) eqn:Hri.
  - destruct Hcase as [|Hrt]; [discriminate|].
    unfold reads_input in Hri. apply andb_true_iff in Hri as [Hop Ht].
    apply Z.eqb_eq in Hop, Ht.
    destruct (cin c) as [|v rest] eqn:Hin.
    + rewrite decode_trap_read_empty in E by done. by injection E as <-.
    + rewrite (decode_trap_read _ v rest) in E by done. injection E as <-.
      destruct c. cpu_norm. pose proof (rt_range w).
      rewrite <- (Z2Nat.id REG_ZERO) by done.
      apply arr_get_insert_ne. unfold REG_ZERO. lia.
  - destruct Hp as (_&_&_&_&_&_&_&Hrf&_).
    specialize (Hrf Hri). destruct c. revert Hrf. cpu_norm. by intros ->.
Qed.

(** Data memory changes in an iteration only if the instruction is [sw]. *)
Theorem step_stores_only_for_sw c c' (w : Z) :
  wf c -> step c = Some c' -> loadWord (iMem c) (pc c) = Some w ->
  opcode_of w <> 0x2b -> dMem c' = dMem c.
Proof.
  intros Hwf H Hw Hop.
  destruct (step_fetched c c' w Hwf H Hw) as (c2 & E & Hp & Hb).
  destruct Hp as (_&_&_&_&_&_&_&_&_&_&_&_&Hst&_&_&Hdm&_).
  apply back_end_effect in Hb.
  destruct Hb as (_&_&_&_&_&_&_&_&_&_&_&_&_&Hdm'&_).
  rewrite Hdm', Hdm; [by destruct c|].
  rewrite Hst. destruct c. cpu_norm. by apply Z.eqb_neq.
Qed.

(** The accumulator registers change in an iteration only for [mult] and
    [div]. *)
Theorem step_hi_lo_only_for_multdiv c c' (w : Z) :
  wf c -> step c = Some c' -> loadWord (iMem c) (pc c) = Some w ->
  is_multdiv w = false -> hi c' = hi c /\ lo c' = lo c.
Proof.
  intros Hwf H Hw Hmd.
  destruct (step_fetched c c' w Hwf H Hw) as (c2 & E & Hp & Hb).
  pose proof (decode_multdiv (fetched_from c w) c2 Hwf E) as Hsig.
  destruct Hp as (_&_&_&_&_&_&_&_&_&_&_&_&_&Hhi&Hlo&_).
  apply back_end_effect in Hb.
  destruct Hb as (_&_&_&_&_&_&_&_&_&_&_&_&_&_&Hhl&_).
  rewrite Hsig in Hhl. destruct c. revert Hhl Hhi Hlo. cpu_norm.
  rewrite Hmd. intros [-> ->] -> ->. done.
Qed.

(** An instruction outside the flush cases leaves [pc] four bytes on. *)
Theorem step_sequential_pc c c' (w : Z) :
  wf c -> step c = Some c' -> loadWord (iMem c) (pc c) = Some w ->
  is_transfer w = false -> pc c' = wrap32 (pc c + 4).
Proof.
  intros Hwf H Hw Htr.
  destruct (step_fetched c c' w Hwf H Hw) as (c2 & E & Hp & Hb).
  destruct Hp as (_&_&_&_&_&_&_&_&Hpc&_).
  apply back_end_effect in Hb. destruct Hb as (_&_&Hpc'&_).
  rewrite Hpc', Hpc; [by destruct c|]. by destruct c.
Qed.

(** With no memory access to make, the stages after [decode] return as
    long as [destReg] names a register. *)
Lemma back_end_returns c :
  opIsLoad c = false -> opIsStore c = false ->
  length (regFile c) = Z.to_nat NREGS -> destReg_ok c ->
  exists c', (c3 ← mem (execute c); writeback c3) = Some c'.
Proof.
  unfold CPU.execute, CPU.mem, CPU.writeback, destReg_ok. destruct c. cpu_norm.
  intros -> -> Hr Hd. destruct (alu_op _ _ _ _) as [r a]. cpu_norm.
  cbn [mbind option_bind].
  destruct (writeDest0 && (0 <? destReg0)) eqn:Hw.
  - apply andb_true_iff in Hw as [_ Hpos]. apply Z.ltb_lt in Hpos.
    destruct (reg_set regFile0 destReg0 r Hr) as (rf & -> & _);
      [unfold NREGS in Hd; lia|].
    cbn [mbind option_bind]. cpu_norm. destruct opIsMultDiv0; by eexists.
  - cbn [mbind option_bind]. cpu_norm. destruct opIsMultDiv0; by eexists.
Qed.

Lemma decode_post_destReg_ok c c2 :
  destReg_ok c -> decode_post c c2 -> destReg_ok c2.
Proof.
  intros Hd (_&_&_&_&_&_&_&_&_&Hdr&_).
  destruct (sets_destReg (instr c)); [done|]. unfold destReg_ok in *. by rewrite Hdr.
Qed.

Lemma step_returns_non_memop c (w : Z) :
  wf c -> destReg_ok c -> loadWord (iMem c) (pc c) = Some w ->
  is_memop w = false ->
  exists c', step c = Some c' /\ wf c' /\ destReg_ok c'.
Proof.
  intros Hwf Hd Hw Hm. rewrite step_unfold, Hw. cbn [mbind option_bind].
  destruct (decode_effect (fetched_from c w)) as (c2 & E & Hp); [exact Hwf|].
  rewrite E. cbn [mbind option_bind].
  assert (Hd2 : destReg_ok c2) by (by apply (decode_post_destReg_ok (fetched_from c w))).
  pose proof Hp as ([Hs2 Hr2]&_&_&_&_&_&_&_&_&_&_&Hld&Hst&_).
  unfold is_memop in Hm. apply orb_false_iff in Hm as [Hm1 Hm2].
  destruct c; revert Hld Hst; cpu_norm; rewrite Hm1, Hm2; intros Hld Hst.
  destruct (back_end_returns c2 Hld Hst Hr2 Hd2) as (c' & Hb).
  exists c'. split; [done|].
  pose proof (back_end_effect _ _ Hb) as (Hst' & _ & _ & _ & _ & _ & Hdr & _).
  pose proof (back_end_regFile_length _ _ Hb) as Hlen.
  split; [split|]; [by rewrite Hst' | by rewrite Hlen |].
  unfold destReg_ok in *. by rewrite Hdr.
Qed.

(** An iteration that has no memory access to make cannot fault: once
    [destReg] names a register, as it does after any instruction that
    assigns it, every instruction other than [lw] and [sw] runs to the end
    of its iteration, and [destReg] still names a register. *)
Theorem step_returns_without_memory_access c (w : Z) :
  wf c -> destReg_ok c -> loadWord (iMem c) (pc c) = Some w ->
  is_memop w = false ->
  exists c', step c = Some c' /\ wf c' /\ destReg_ok c'.
Proof. apply step_returns_non_memop. Qed.

(** Every iteration adds one to the instruction count. *)
Lemma step_counts_instruction c c' :
  wf c -> step c = Some c' -> instructions c' = instructions c + 1.
Proof.
  intros Hwf H. destruct (step_inv c c' Hwf H) as (w & c2 & _ & _ & Hp & Hb).
  destruct Hp as (_&_&_&_&_&_&_&_&_&_&_&_&_&_&_&_&_&_&Hi&_).
  apply back_end_effect in Hb. destruct Hb as (_&_&_&Hi'&_).
  rewrite Hi', Hi. by destruct c.
Qed.

Lemma run_instructions fuel c c' :
  wf c -> run fuel c = Halted c' ->
  instructions c <= instructions c' /\
  (stop c = false -> instructions c < instructions c').
Proof.
  revert c. induction fuel as [|fuel IH]; intros c Hwf; cbn [CPU.run].
  - destruct (stop c); [|discriminate]. intros [= <-]. split; [lia | discriminate].
  - destruct (stop c).
    { intros [= <-]. split; [lia | discriminate]. }
    destruct (step c) as [c1|] eqn:E; [|discriminate]. intros H.
    pose proof (step_counts_instruction c c1 Hwf E).
    destruct (step_accounted c c1 Hwf E) as [Hwf1 _].
    destruct (IH c1 Hwf1 H) as [Hle _]. split; [lia | intros _; lia].
Qed.

(** A run that halts has executed at least one instruction, so the
    ratios of the final report that divide by the instruction count (CPI,
    memory operations, branches) have a divisor other than 0. *)
Theorem report_divides_by_positive_instructions (u : CPU) pc0 im dm c0 fuel c' :
  construct getSize u pc0 im dm = Some c0 ->
  run fuel c0 = Halted c' ->
  1 <= instructions c' /\
  divisor (rep_cpi (printFinalStats c')) = instructions c' /\
  divisor (rep_memops (printFinalStats c')) = instructions c' /\
  divisor (rep_branches (printFinalStats c')) = instructions c'.
Proof.
  intros Hc Hrun.
  destruct (construct_spec u pc0 im dm) as (c0' & E & Hwf & _ & _ & _ & _ & Hi & Hs & _).
  assert (c0' = c0) as -> by congruence.
  destruct (run_instructions fuel c0 c' Hwf Hrun) as [_ Hlt].
  specialize (Hlt Hs). split; [lia|]. by repeat split.
Qed.

(** *** The immediate and the jump target *)

(** The signed immediate is the 16-bit field read in two's complement. *)
Theorem simm_of_sign_extends (i : Z) :
  - 2 ^ 15 <= simm_of i < 2 ^ 15 /\
  simm_of i = (if uimm_of i <? 2 ^ 15 then uimm_of i else uimm_of i - 2 ^ 16).
Proof.
  unfold simm_of, to_int32.
  assert (Hu : 0 <= uimm_of i < 2 ^ 16).
  { unfold uimm_of. change 0xffff with (Z.ones 16). rewrite Z.land_ones by lia.
    apply Z.mod_pos_bound. lia. }
  set (u := uimm_of i) in *. clearbody u.
  rewrite Z.shiftl_mul_pow2, Z.shiftr_div_pow2 by lia.
  destruct (Z.ltb_spec u (2 ^ 15)) as [Hlt|Hge].
  - rewrite Z.mod_small by lia.
    replace (u * 2 ^ 16 + 2 ^ 31 - 2 ^ 31) with (u * 2 ^ 16) by lia.
    rewrite Z.div_mul by lia. lia.
  - replace (u * 2 ^ 16 + 2 ^ 31) with (u * 2 ^ 16 - 2 ^ 31 + 1 * 2 ^ 32) by lia.
    rewrite Z.mod_add by lia. rewrite Z.mod_small by lia.
    replace (u * 2 ^ 16 - 2 ^ 31 - 2 ^ 31) with ((u - 2 ^ 16) * 2 ^ 16) by lia.
    rewrite Z.div_mul by lia. lia.
Qed.

(** A jump target is word aligned whatever the instruction word and the
    program counter. *)
Theorem jump_target_aligned (pc0 addr : Z) : jump_target pc0 addr mod 4 = 0.
Proof.
  unfold jump_target, wrap32. change 4 with (2 ^ 2).
  rewrite <- Z.land_ones by lia. rewrite Z.land_lor_distr_l.
  rewrite <- Z.land_assoc. change (Z.land 0xf0000000 (Z.ones 2)) with 0.
  rewrite Z.land_0_r, Z.lor_0_l. rewrite Z.land_ones by lia.
  rewrite Z.shiftl_mul_pow2 by lia.
  set (x := addr * 2 ^ 2). rewrite (Z.mod_eq x (2 ^ 32)) by lia.
  replace (x - 2 ^ 32 * (x / 2 ^ 32))
    with ((addr - 2 ^ 30 * (x / 2 ^ 32)) * 2 ^ 2) by (unfold x; lia).
  apply Z.mod_mul. lia.
Qed.

(** *** What the tracker is told about destinations *)

Lemma do_src_front r c :
  Stats.wf (stats c) ->
  exists st, stats_do (Stats.registerSrc r) c = Some (set_stats st c) /\
             Stats.wf st /\ same_front_end (stats c) st.
Proof.
  intros H. destruct (registerSrc_frame _ r H) as (st & E & Hwf & _ & _ & _ & Hfe).
  exists st. unfold stats_do. rewrite E. done.
Qed.

Ltac fstep :=
  first
  [ match goal with
    | |- context [stats_do (Stats.registerSrc ?r) ?c] =>
        let st := fresh "st" in let Hw := fresh "Hwf" in let H := fresh "Hfe" in
        destruct (do_src_front r c) as (st & -> & Hw & H);
        [ cpu_norm; (assumption || eauto with tracker) | cpu_norm_all ]
    end
  | match goal with
    | |- context [stats_do (Stats.registerDest ?r) ?c] =>
        let st := fresh "st" in let H := fresh "Hst" in
        destruct (do_dest r c) as (st & -> & H);
        [ cpu_norm; (assumption || eauto with tracker) | cpu_norm_all ]
    end
  | match goal with
    | |- context [arr_get ?l ?r] =>
        let v := fresh "v" in
        destruct (reg_get l r) as (v & ->); [ assumption | reg_range | ]
    end ];
  cbn [mbind option_bind]; cpu_norm.

(** [addu] tells the tracker that [rd] is in flight; [slt], which
    writes [rd] just the same, does not: its case has no [registerDest]
    call, and the decode slot keeps what it held. *)
Theorem slt_destination_not_recorded c :
  wf c -> opcode_of (instr c) = 0x00 ->
  (funct_of (instr c) = 0x21 ->
   exists c', decode c = Some c' /\ writeDest c' = true /\
     destReg c' = rd_of (instr c) /\
     arr_get (Stats.resultReg (stats c')) Stats.ID = Some (rd_of (instr c))) /\
  (funct_of (instr c) = 0x2a ->
   exists c', decode c = Some c' /\ writeDest c' = true /\
     destReg c' = rd_of (instr c) /\
     arr_get (Stats.resultReg (stats c')) Stats.ID =
     arr_get (Stats.resultReg (stats c)) Stats.ID).
Proof.
  intros [Hs Hr] Hop. split; intros Hf; unfold decode; cbv zeta;
    rewrite Hop; cbv beta iota; rewrite Hf; cbv beta iota;
    destruct c; cpu_norm_all; repeat fstep;
    (eexists; split; [reflexivity|]); cpu_norm;
    unfold same_front_end, dest_only in *; destruct_and?;
    repeat split; congruence.
Qed.

(** *** Loads, stores and the stop request *)

Lemma decode_sw c :
  wf c -> opcode_of (instr c) = 0x2b ->
  exists st a d,
    arr_get (regFile c) (rs_of (instr c)) = Some a /\
    arr_get (regFile c) (rt_of (instr c)) = Some d /\
    decode c =
    Some (set_aluSrc2 (wrap32 (simm_of (instr c)))
            (set_aluSrc1 a
               (set_aluOp ADD
                  (set_storeData d
                     (set_stats st (set_opIsStore true (reset_signals c))))))).
Proof.
  intros [Hs Hr] Hop. unfold decode. cbv zeta. rewrite Hop. cbv beta iota.
  destruct c. cpu_norm_all.
  destruct (reg_get regFile0 (rs_of instr0) Hr (rs_range _)) as (a & Ha).
  destruct (reg_get regFile0 (rt_of instr0) Hr (rt_range _)) as (d & Hd).
  repeat dstep. by do 3 eexists.
Qed.

Lemma decode_lw c :
  wf c -> opcode_of (instr c) = 0x23 ->
  exists st a,
    arr_get (regFile c) (rs_of (instr c)) = Some a /\
    decode c =
    Some (set_aluSrc2 (wrap32 (simm_of (instr c)))
            (set_aluSrc1 a
               (set_aluOp ADD
                  (set_stats st
                     (set_destReg (rt_of (instr c))
                        (set_writeDest true
                           (set_opIsLoad true (reset_signals c)))))))).
Proof.
  intros [Hs Hr] Hop. unfold decode. cbv zeta. rewrite Hop. cbv beta iota.
  destruct c. cpu_norm_all.
  destruct (reg_get regFile0 (rs_of instr0) Hr (rs_range _)) as (a & Ha).
  repeat dstep. by do 2 eexists.
Qed.

(** [sw] stores the value of register [rt] at the address the unit
    computes from register [rs] and the signed immediate, and writes no
    register. *)
Theorem step_sw_stores_rt c c' (w : Z) :
  wf c -> step c = Some c' -> loadWord (iMem c) (pc c) = Some w ->
  opcode_of w = 0x2b ->
  exists a d,
    arr_get (regFile c) (rs_of w) = Some a /\
    arr_get (regFile c) (rt_of w) = Some d /\
    storeWord d (fst (alu_op ADD a (wrap32 (simm_of w)) (alu c))) (dMem c)
      = Some (dMem c') /\
    regFile c' = regFile c.
Proof.
  intros Hwf H Hw Hop. rewrite step_unfold, Hw in H. cbn [mbind option_bind] in H.
  destruct (decode_sw (fetched_from c w) Hwf Hop) as (st & a & d & Ha & Hd & E).
  rewrite E in H. cbn [mbind option_bind] in H. exists a, d.
  revert H Ha Hd. unfold CPU.execute, CPU.mem, CPU.writeback. destruct c. cpu_norm.
  destruct (alu_op _ _ _ _) as [r al]. cpu_norm. cbn [mbind option_bind fst].
  destruct (storeWord _ _ _) as [m|]; [|discriminate].
  cbn [mbind option_bind andb]. cpu_norm. by intros [= <-].
Qed.

(** [lw] loads the word at that address into register [rt], unless
    [rt] is register 0, and leaves data memory as it was. *)
Theorem step_lw_loads_rt c c' (w : Z) :
  wf c -> step c = Some c' -> loadWord (iMem c) (pc c) = Some w ->
  opcode_of w = 0x23 ->
  exists a v,
    arr_get (regFile c) (rs_of w) = Some a /\
    loadWord (dMem c) (fst (alu_op ADD a (wrap32 (simm_of w)) (alu c))) = Some v /\
    regFile c' = (if 0 <? rt_of w then <[Z.to_nat (rt_of w) := v]> (regFile c)
                  else regFile c) /\
    dMem c' = dMem c.
Proof.
  intros Hwf H Hw Hop. rewrite step_unfold, Hw in H. cbn [mbind option_bind] in H.
  destruct (decode_lw (fetched_from c w) Hwf Hop) as (st & a & Ha & E).
  rewrite E in H. cbn [mbind option_bind] in H. exists a.
  destruct Hwf as [_ Hr].
  revert H Ha Hr. unfold CPU.execute, CPU.mem, CPU.writeback. destruct c. cpu_norm.
  destruct (alu_op _ _ _ _) as [r al]. cpu_norm. cbn [mbind option_bind fst].
  destruct (loadWord dMem0 r) as [v|]; [|discriminate].
  cbn [mbind option_bind andb]. cpu_norm. intros H Ha Hr. exists v.
  destruct (0 <? rt_of w) eqn:Hpos.
  - destruct (reg_set regFile0 (rt_of w) v Hr (rt_range w)) as (rf & Erf & _ & ->).
    rewrite Erf in H. cbn [mbind option_bind] in H. revert H. cpu_norm.
    by intros [= <-].
  - cbn [mbind option_bind] in H. revert H. cpu_norm. by intros [= <-].
Qed.


End Driver.

(** *** The theorems on the bench *)

Import Bench.

Lemma decode_branch_not_taken_still_flushes_witness :
  let c := fetched beq_zero_gp [] in
  wf c /\
  arr_get (regFile c) (rs_of (instr c)) = Some 0 /\
  arr_get (regFile c) (rt_of (instr c)) = Some 0x10008000 /\
  exists c',
    decode c = Some c' /\ pc c' = pc c /\
    Stats.flushes (stats c') = Stats.flushes (stats c) + 2 /\
    Stats.cycles (stats c') =
      Stats.cycles (stats c) +
      (Stats.bubbles (stats c') - Stats.bubbles (stats c)) + 2.
Proof.
  intros c. split; [split; reflexivity|]. split; [reflexivity|].
  split; [reflexivity|].
  apply (decode_branch_not_taken_still_flushes c 0 0x10008000);
    [split; reflexivity | reflexivity | reflexivity |].
  left. split; [reflexivity | discriminate].
Defined.

Lemma decode_branch_not_taken_still_counts_taken_witness :
  let c := fetched beq_zero_gp [] in
  wf c /\
  arr_get (regFile c) (rs_of (instr c)) = Some 0 /\
  arr_get (regFile c) (rt_of (instr c)) = Some 0x10008000 /\
  exists c',
    decode c = Some c' /\ pc c' = pc c /\
    Stats.taken (stats c') = Stats.taken (stats c) + 1 /\
    Stats.branches (stats c') = Stats.branches (stats c) + 1.
Proof.
  intros c. split; [split; reflexivity|]. split; [reflexivity|].
  split; [reflexivity|].
  apply (decode_branch_not_taken_still_counts_taken c 0 0x10008000);
    [split; reflexivity | reflexivity | reflexivity |].
  left. split; [reflexivity | discriminate].
Defined.

Lemma boot_booted prog input : boot prog input = Some (booted prog input).
Proof. reflexivity. Qed.

Lemma run_cycles_count_no_instructions_witness :
  exists c',
    boot prog_independent [] = Some (booted prog_independent []) /\
    brun 10 (booted prog_independent []) = Halted c' /\
    instructions c' = 4 /\
    Stats.bubbles (stats c') = 0 /\ Stats.flushes (stats c') = 0 /\
    Stats.cycles (stats c') =
      (Stats.PIPESTAGES - 1) + Stats.bubbles (stats c') + Stats.flushes (stats c').
Proof.
  eexists. split; [reflexivity|]. split; [vm_compute; reflexivity|].
  split; [reflexivity|]. split; [reflexivity|]. split; [reflexivity|].
  eapply (run_cycles_count_no_instructions
            Bench.loadWord Bench.storeWord Bench.getSize Bench.alu_op
            Bench.getUpper Bench.getLower
            (raw []) text_base (mkMem text_base prog_independent)
            (mkMem data_base (replicate 16 0)) (booted prog_independent []) 10%nat);
    [reflexivity | vm_compute; reflexivity].
Defined.

(** C5, as stated, fails: the word with opcode 0x3f is reported and the
    run goes on; [stop] is still clear after its iteration, and the next
    instruction, the stop request, is executed as the second one. *)
Lemma unknown_opcode_not_fatal_counterexample :
  exists c' c'',
    bstep (booted prog_unknown_opcode []) = Some c' /\
    stop c' = false /\
    cerr c' = [UnimplementedInstruction text_base] /\
    brun 5 (booted prog_unknown_opcode []) = Halted c'' /\
    instructions c'' = 2.
Proof.
  do 2 eexists. split; [vm_compute; reflexivity|]. split; [reflexivity|].
  split; [reflexivity|]. split; [vm_compute; reflexivity|]. reflexivity.
Qed.

Lemma unsupported_instruction_policy_witness :
  let c := booted prog_unknown_opcode [] in
  let w := enc_i 0x3f 0 0 0 in
  Bench.loadWord (iMem c) (pc c) = Some w /\
  exists c', bstep c = Some c' /\ stop c' = stop c /\
     cerr c' = cerr c ++ [UnimplementedInstruction (wrap32 (wrap32 (pc c + 4) - 4))] /\
     regFile c' = regFile c /\ hi c' = hi c /\ lo c' = lo c /\
     dMem c' = dMem c /\ stats c' = stats c /\
     cin c' = cin c /\ cout c' = cout c /\ pc c' = wrap32 (pc c + 4).
Proof.
  intros c w. split; [reflexivity|].
  apply (unsupported_instruction_policy
           Bench.loadWord Bench.storeWord Bench.alu_op Bench.getUpper
           Bench.getLower c w); [reflexivity|].
  right. vm_compute. intuition discriminate.
Defined.

(** C6, as stated, fails: after a run that executes no branch the branch
    count is 0 and the report divides by it. *)
Lemma percent_taken_divides_by_zero_counterexample :
  exists c',
    brun 5 (booted [enc_trap 0 0 0xa] []) = Halted c' /\
    Stats.branches (stats c') = 0 /\
    divisor (rep_taken (printFinalStats c')) = 0.
Proof.
  eexists. split; [vm_compute; reflexivity|]. split; reflexivity.
Qed.

Lemma step_trap_read_overwrites_zero_witness :
  let c := booted [trap_read_zero] [42] in
  wf c /\ Bench.loadWord (iMem c) (pc c) = Some trap_read_zero /\
  opcode_of trap_read_zero = 0x1a /\
  Z.land (addr_of trap_read_zero) 0xf = 0x5 /\ rt_of trap_read_zero = 0 /\
  exists c', bstep c = Some c' /\
             arr_get (regFile c') REG_ZERO = Some (wrap32 42) /\
             cin c' = [].
Proof.
  intros c. split; [split; reflexivity|]. do 4 (split; [reflexivity|]).
  apply (step_trap_read_overwrites_zero
           Bench.loadWord Bench.storeWord Bench.alu_op Bench.getUpper
           Bench.getLower c trap_read_zero 42 []);
    first [ reflexivity | split; reflexivity ].
Defined.

Lemma step_lui_commits_to_stale_destReg_witness :
  exists c1,
    bstep (booted prog_lui []) = Some c1 /\
    wf c1 /\ destReg_ok c1 /\ destReg c1 = 5 /\
    Bench.loadWord (iMem c1) (pc c1) = Some (enc_i 0x0f 0 3 1) /\
    rt_of (enc_i 0x0f 0 3 1) = 3 /\
    exists c', bstep c1 = Some c' /\
      destReg c' = destReg c1 /\
      arr_get (Stats.resultReg (stats c')) Stats.ID = Some (rt_of (enc_i 0x0f 0 3 1)) /\
      writeData c' =
        fst (Bench.alu_op SHF_L (wrap32 (simm_of (enc_i 0x0f 0 3 1))) 16 (alu c1)) /\
      regFile c' = (if 0 <? destReg c1
                    then <[Z.to_nat (destReg c1) := writeData c']> (regFile c1)
                    else regFile c1) /\
      (rt_of (enc_i 0x0f 0 3 1) <> destReg c1 ->
       arr_get (regFile c') (rt_of (enc_i 0x0f 0 3 1)) =
       arr_get (regFile c1) (rt_of (enc_i 0x0f 0 3 1))).
Proof.
  eexists. split; [vm_compute; reflexivity|].
  split; [split; reflexivity|].
  split; [unfold destReg_ok; vm_compute; split; [discriminate | reflexivity]|].
  do 3 (split; [reflexivity|]).
  apply (step_lui_commits_to_stale_destReg
           Bench.loadWord Bench.storeWord Bench.alu_op Bench.getUpper
           Bench.getLower);
    first [ reflexivity | split; reflexivity
          | unfold destReg_ok; vm_compute; split; [discriminate | reflexivity] ].
Defined.

(** *** The further theorems on the bench *)

Lemma decode_never_faults_witness :
  wf (fetched beq_zero_gp []) /\
  exists c', decode (fetched beq_zero_gp []) = Some c' /\ wf c'.
Proof.
  split; [split; reflexivity|].
  apply (decode_never_faults (fetched beq_zero_gp [])). split; reflexivity.
Defined.

Lemma decode_counters_by_class_witness :
  let c := fetched beq_zero_gp [] in
  wf c /\
  exists c', decode c = Some c' /\
    Stats.memops (stats c') =
      Stats.memops (stats c) + (if is_memop (instr c) then 1 else 0) /\
    Stats.branches (stats c') =
      Stats.branches (stats c) + (if is_branch (instr c) then 1 else 0) /\
    Stats.taken (stats c') =
      Stats.taken (stats c) + (if is_branch (instr c) then 1 else 0) /\
    Stats.flushes (stats c') =
      Stats.flushes (stats c) + (if is_transfer (instr c) then 2 else 0).
Proof.
  intros c. split; [split; reflexivity|].
  apply (decode_counters_by_class c). split; reflexivity.
Defined.

Lemma decode_stop_witness :
  let c := fetched (enc_trap 0 0 0xa) [] in
  wf c /\ exists c', decode c = Some c' /\ stop c' = stop c || halts (instr c).
Proof.
  intros c. split; [split; reflexivity|]. apply (decode_stop c). split; reflexivity.
Defined.

Lemma step_keeps_zero_witness :
  let c := booted prog_independent [] in
  let w := enc_i 0x09 0 1 1 in
  exists c',
    wf c /\ bstep c = Some c' /\ Bench.loadWord (iMem c) (pc c) = Some w /\
    reads_input w = false /\
    arr_get (regFile c') REG_ZERO = arr_get (regFile c) REG_ZERO.
Proof.
  intros c w. eexists. split; [split; reflexivity|].
  split; [vm_compute; reflexivity|]. split; [reflexivity|]. split; [reflexivity|].
  apply (step_keeps_zero Bench.loadWord Bench.storeWord Bench.alu_op
           Bench.getUpper Bench.getLower c _ w);
    [split; reflexivity | vm_compute; reflexivity | reflexivity | left; reflexivity].
Defined.

Lemma step_stores_only_for_sw_witness :
  let c := booted prog_independent [] in
  let w := enc_i 0x09 0 1 1 in
  exists c',
    wf c /\ bstep c = Some c' /\ Bench.loadWord (iMem c) (pc c) = Some w /\
    opcode_of w <> 0x2b /\ dMem c' = dMem c.
Proof.
  intros c w. eexists. split; [split; reflexivity|].
  split; [vm_compute; reflexivity|]. split; [reflexivity|]. split; [discriminate|].
  apply (step_stores_only_for_sw Bench.loadWord Bench.storeWord Bench.alu_op
           Bench.getUpper Bench.getLower c _ w);
    [split; reflexivity | vm_compute; reflexivity | reflexivity | discriminate].
Defined.

Lemma step_hi_lo_only_for_multdiv_witness :
  let c := booted prog_independent [] in
  let w := enc_i 0x09 0 1 1 in
  exists c',
    wf c /\ bstep c = Some c' /\ Bench.loadWord (iMem c) (pc c) = Some w /\
    is_multdiv w = false /\ hi c' = hi c /\ lo c' = lo c.
Proof.
  intros c w. eexists. split; [split; reflexivity|].
  split; [vm_compute; reflexivity|]. split; [reflexivity|]. split; [reflexivity|].
  apply (step_hi_lo_only_for_multdiv Bench.loadWord Bench.storeWord Bench.alu_op
           Bench.getUpper Bench.getLower c _ w);
    [split; reflexivity | vm_compute; reflexivity | reflexivity | reflexivity].
Defined.

Lemma step_sequential_pc_witness :
  let c := booted prog_independent [] in
  let w := enc_i 0x09 0 1 1 in
  exists c',
    wf c /\ bstep c = Some c' /\ Bench.loadWord (iMem c) (pc c) = Some w /\
    is_transfer w = false /\ pc c' = wrap32 (pc c + 4).
Proof.
  intros c w. eexists. split; [split; reflexivity|].
  split; [vm_compute; reflexivity|]. split; [reflexivity|]. split; [reflexivity|].
  apply (step_sequential_pc Bench.loadWord Bench.storeWord Bench.alu_op
           Bench.getUpper Bench.getLower c _ w);
    [split; reflexivity | vm_compute; reflexivity | reflexivity | reflexivity].
Defined.

Lemma step_returns_without_memory_access_witness :
  let c := booted prog_independent [] in
  let w := enc_i 0x09 0 1 1 in
  wf c /\ destReg_ok c /\ Bench.loadWord (iMem c) (pc c) = Some w /\
  is_memop w = false /\
  exists c', bstep c = Some c' /\ wf c' /\ destReg_ok c'.
Proof.
  intros c w. split; [split; reflexivity|].
  split; [split; [discriminate | reflexivity]|].
  split; [reflexivity|]. split; [reflexivity|].
  apply (step_returns_without_memory_access Bench.loadWord Bench.storeWord
           Bench.alu_op Bench.getUpper Bench.getLower c w);
    [split; reflexivity | split; [discriminate | reflexivity]
    | reflexivity | reflexivity].
Defined.

Lemma report_divides_by_positive_instructions_witness :
  exists c',
    boot prog_independent [] = Some (booted prog_independent []) /\
    brun 10 (booted prog_independent []) = Halted c' /\
    1 <= instructions c' /\
    divisor (rep_cpi (printFinalStats c')) = instructions c' /\
    divisor (rep_memops (printFinalStats c')) = instructions c' /\
    divisor (rep_branches (printFinalStats c')) = instructions c'.
Proof.
  eexists. split; [reflexivity|]. split; [vm_compute; reflexivity|].
  eapply (report_divides_by_positive_instructions
            Bench.loadWord Bench.storeWord Bench.getSize Bench.alu_op
            Bench.getUpper Bench.getLower
            (raw []) text_base (mkMem text_base prog_independent)
            (mkMem data_base (replicate 16 0)) (booted prog_independent []) 10%nat);
    [reflexivity | vm_compute; reflexivity].
Defined.

Lemma slt_destination_not_recorded_witness :
  let c := fetched slt_3_1_2 [] in
  wf c /\ opcode_of (instr c) = 0x00 /\ funct_of (instr c) = 0x2a /\
  exists c', decode c = Some c' /\ writeDest c' = true /\
    destReg c' = rd_of (instr c) /\
    arr_get (Stats.resultReg (stats c')) Stats.ID =
    arr_get (Stats.resultReg (stats c)) Stats.ID.
Proof.
  intros c. split; [split; reflexivity|]. split; [reflexivity|].
  split; [reflexivity|].
  apply (slt_destination_not_recorded c); [split; reflexivity | reflexivity..].
Defined.

Lemma step_sw_stores_rt_witness :
  let c := booted [sw_gp_top] [] in
  exists c',
    wf c /\ bstep c = Some c' /\
    Bench.loadWord (iMem c) (pc c) = Some sw_gp_top /\
    opcode_of sw_gp_top = 0x2b /\
    exists a d,
      arr_get (regFile c) (rs_of sw_gp_top) = Some a /\
      arr_get (regFile c) (rt_of sw_gp_top) = Some d /\
      Bench.storeWord d
        (fst (Bench.alu_op ADD a (wrap32 (simm_of sw_gp_top)) (alu c))) (dMem c)
        = Some (dMem c') /\
      regFile c' = regFile c.
Proof.
  intros c. eexists. split; [split; reflexivity|].
  split; [vm_compute; reflexivity|]. split; [reflexivity|]. split; [reflexivity|].
  apply (step_sw_stores_rt Bench.loadWord Bench.storeWord Bench.alu_op
           Bench.getUpper Bench.getLower c _ sw_gp_top);
    [split; reflexivity | vm_compute; reflexivity | reflexivity | reflexivity].
Defined.

Lemma step_lw_loads_rt_witness :
  let c := booted [lw_1_top] [] in
  exists c',
    wf c /\ bstep c = Some c' /\
    Bench.loadWord (iMem c) (pc c) = Some lw_1_top /\
    opcode_of lw_1_top = 0x23 /\
    exists a v,
      arr_get (regFile c) (rs_of lw_1_top) = Some a /\
      Bench.loadWord (dMem c)
        (fst (Bench.alu_op ADD a (wrap32 (simm_of lw_1_top)) (alu c))) = Some v /\
      regFile c' = (if 0 <? rt_of lw_1_top
                    then <[Z.to_nat (rt_of lw_1_top) := v]> (regFile c)
                    else regFile c) /\
      dMem c' = dMem c.
Proof.
  intros c. eexists. split; [split; reflexivity|].
  split; [vm_compute; reflexivity|]. split; [reflexivity|]. split; [reflexivity|].
  apply (step_lw_loads_rt Bench.loadWord Bench.storeWord Bench.alu_op
           Bench.getUpper Bench.getLower c _ lw_1_top);
    [split; reflexivity | vm_compute; reflexivity | reflexivity | reflexivity].
Defined.


End CPUFacts.
